(** * The AI development team scaffold: tool adapters, selection and entry points

    A shallow embedding of the Python sources

      - [ai_dev_team/main.py]                    ([main], [run_custom_workflow],
                                                  [parse_selection])
      - [ai_dev_team/crew.py]                    ([AiDevTeamCrew.create_custom_crew])
      - [ai_dev_team/tools/file_system_tool.py]  ([FileSystemTool._run])
      - [ai_dev_team/tools/git_tool.py]          ([GitTool._run])
      - [ai_dev_team/tools/web_research_tool.py] ([WebResearchTool._run])

    Conventions.

    - A Python [str] is a [string]; each [ascii] stands for the code point
      U+0000..U+00FF of the same number, so the string methods below are the
      Python ones restricted to Latin-1 text.
    - A Python exception (a subclass of [Exception]) is a value of [exn]; a
      computation that may raise has type [outcome A], and one that also
      touches the outside world has type [M A]. Interrupts and [SystemExit]
      are not exceptions in this sense; [sys.exit] has its own place in
      the endings of a script.
    - The outside world ([World]) holds a POSIX file tree without links or
      permissions, the working directory, the lines still to be typed, the
      log of subprocess and network calls, and the answers of what the
      program cannot decide itself ([Host]: shutil, git, the network, the
      HTML parser, the agent framework). The methods of pathlib are modelled
      on the file tree, with the errors the system calls give (a missing
      parent, a file where a directory is needed, a directory where a file
      is needed, a NUL in a name). *)

From Stdlib Require Import String Ascii ZArith Lia List.
From stdpp Require Import base option list gmap strings pretty.

Local Open Scope string_scope.
Local Open Scope list_scope.
Local Open Scope Z_scope.

(** ** Exceptions and the two monads *)

Inductive exn_class :=
  | ValueError | IndexError | TypeError | AttributeError | KeyError
  | FileNotFoundError | FileExistsError | IsADirectoryError
  | NotADirectoryError | SameFileError | ShutilError | EOFError
  | RequestException | JSONDecodeError | RuntimeError.

(** [exn_str e] is what [str(e)] prints. *)
Record exn := Exn { exn_cls : exn_class; exn_str : string }.

Inductive outcome (A : Type) :=
  | Return (a : A)
  | Raise (e : exn).
Arguments Return {A} a.
Arguments Raise {A} e.

#[global] Instance outcome_ret : MRet outcome := fun A a => Return a.
#[global] Instance outcome_bind : MBind outcome := fun A B f m =>
  match m with
  | Return a => f a
  | Raise e => Raise e
  end.

(** [for x in l: s = body(s, x)], stopping at the first exception. *)
Fixpoint for_each {A S : Type} (body : S -> A -> outcome S) (s : S) (l : list A)
  : outcome S :=
  match l with
  | [] => Return s
  | x :: l' => s' ← body s x; for_each body s' l'
  end.

(** ** Python's [str] methods, on Latin-1 text *)

Module Str.

Definition code (c : ascii) : Z := Z.of_N (N_of_ascii c).

(** [c.isspace()]: TAB..CR, FS..US, SPACE, NEL and NBSP. *)
Definition isspace (c : ascii) : bool :=
  let n := code c in
  ((9 <=? n) && (n <=? 13)) || ((28 <=? n) && (n <=? 32))
  || (n =? 133) || (n =? 160).

(** [c.isdecimal()]: the ten ASCII digits. *)
Definition isdecimal (c : ascii) : bool :=
  let n := code c in (48 <=? n) && (n <=? 57).

(** [c.isdigit()]: the decimal digits and the superscript digits
    U+00B2, U+00B3 and U+00B9, which are digits but not decimals. *)
Definition isdigit_char (c : ascii) : bool :=
  let n := code c in
  isdecimal c || (n =? 178) || (n =? 179) || (n =? 185).

Fixpoint forallb (p : ascii -> bool) (s : string) : bool :=
  match s with
  | EmptyString => true
  | String c s' => p c && forallb p s'
  end.

(** [s.isdigit()]: at least one character, and all of them digits. *)
Definition isdigit (s : string) : bool :=
  match s with
  | EmptyString => false
  | _ => forallb isdigit_char s
  end.

Fixpoint lstrip (s : string) : string :=
  match s with
  | EmptyString => EmptyString
  | String c s' => if isspace c then lstrip s' else s
  end.

Fixpoint rstrip (s : string) : string :=
  match s with
  | EmptyString => EmptyString
  | String c s' =>
      match rstrip s' with
      | EmptyString => if isspace c then EmptyString else String c EmptyString
      | r => String c r
      end
  end.

(** [s.strip()] *)
Definition strip (s : string) : string := rstrip (lstrip s).

(** [s.split(sep)] for a one-character separator: never the empty list. *)
Fixpoint split (sep : ascii) (s : string) : list string :=
  match s with
  | EmptyString => [EmptyString]
  | String c s' =>
      if Ascii.eqb c sep then EmptyString :: split sep s'
      else match split sep s' with
           | h :: t => String c h :: t
           | [] => [String c EmptyString]
           end
  end.

(** [sep.join(l)] *)
Fixpoint join (sep : string) (l : list string) : string :=
  match l with
  | [] => EmptyString
  | [x] => x
  | x :: l' => x +:+ sep +:+ join sep l'
  end.

(** [repr(s)], for text that needs no escape. *)
Definition repr (s : string) : string := "'" +:+ s +:+ "'".

(** The digits of [int(s)]: decimal digits, with single underscores
    allowed between two of them. *)
Fixpoint int_literal (after_digit : bool) (acc : Z) (s : string) : option Z :=
  match s with
  | EmptyString => if after_digit then Some acc else None
  | String c s' =>
      if Ascii.eqb c "_" then
        if after_digit then int_literal false acc s' else None
      else if isdecimal c then int_literal true (10 * acc + (code c - 48)) s'
      else None
  end.

(** [int(s)]: surrounding white space and one sign are accepted; anything
    that is not a decimal numeral raises [ValueError]. The interpreter's
    configurable cap on the length of a numeral is taken as switched off. *)
Definition int (s : string) : outcome Z :=
  let t := strip s in
  let '(neg, body) :=
    match t with
    | String "-" r => (true, r)
    | String "+" r => (false, r)
    | _ => (false, t)
    end in
  match int_literal false 0 body with
  | Some v => Return (if neg then - v else v)
  | None =>
      Raise (Exn ValueError ("invalid literal for int() with base 10: " +:+ repr s))
  end.

(** [s[:n]] *)
Fixpoint take (n : nat) (s : string) : string :=
  match n, s with
  | S n', String c s' => String c (take n' s')
  | _, _ => EmptyString
  end.

Fixpoint startswith (pre s : string) : bool :=
  match pre, s with
  | EmptyString, _ => true
  | String a pre', String b s' => Ascii.eqb a b && startswith pre' s'
  | String _ _, EmptyString => false
  end.

(** [sub in s] *)
Fixpoint contains (sub s : string) : bool :=
  startswith sub s ||
  match s with
  | EmptyString => false
  | String _ s' => contains sub s'
  end.

(** The characters at which [splitlines] ends a line: LF, VT, FF, CR,
    FS, GS, RS and NEL. *)
Definition is_linebreak (c : ascii) : bool :=
  let n := code c in
  ((10 <=? n) && (n <=? 13)) || ((28 <=? n) && (n <=? 30)) || (n =? 133).

Definition cons_head (c : ascii) (l : list string) : list string :=
  match l with
  | h :: t => String c h :: t
  | [] => [String c EmptyString]
  end.

(** [s.splitlines()]: CR LF ends one line; a final line break opens no
    empty last line. *)
Fixpoint splitlines (s : string) : list string :=
  match s with
  | EmptyString => []
  | String c s' =>
      if is_linebreak c then
        EmptyString ::
        match s' with
        | String c' s'' =>
            if Ascii.eqb c "013" && Ascii.eqb c' "010" then splitlines s''
            else splitlines s'
        | EmptyString => []
        end
      else cons_head c (splitlines s')
  end.

(** [s.split("  ")]: cut at each pair of spaces, from the left. *)
Fixpoint split_spaces (s : string) : list string :=
  match s with
  | EmptyString => [EmptyString]
  | String c s' =>
      match s' with
      | String c' s'' =>
          if Ascii.eqb c " " && Ascii.eqb c' " " then EmptyString :: split_spaces s''
          else cons_head c (split_spaces s')
      | EmptyString => [String c EmptyString]
      end
  end.

(** [str(n)] for an integer. *)
Definition of_Z (n : Z) : string := pretty n.

(** [len(s)] *)
Definition len (s : string) : Z := Z.of_nat (String.length s).

End Str.

(** [l[i]] with Python's negative indices and [IndexError]. *)
Definition py_index {A : Type} (l : list A) (i : Z) : outcome A :=
  let n := Z.of_nat (length l) in
  let j := if i <? 0 then i + n else i in
  if (0 <=? j) && (j <? n) then
    match l !! Z.to_nat j with
    | Some x => Return x
    | None => Raise (Exn IndexError "list index out of range")
    end
  else Raise (Exn IndexError "list index out of range").

(** [x in l] for a list of strings. *)
Definition py_in (x : string) (l : list string) : bool := bool_decide (x ∈ l).

Definition nl : string := String "010" EmptyString.

(** ** main.py: the registries and [parse_selection] *)

Definition available_agents : list string :=
  [ "senior_developer"; "frontend_developer"; "backend_developer";
    "devops_engineer"; "qa_engineer"; "tech_lead"; "business_analyst";
    "security_specialist"; "database_admin"; "ui_ux_designer" ].

Definition available_tasks : list string :=
  [ "analyze_project"; "design_architecture"; "develop_backend";
    "develop_frontend"; "design_database"; "assess_security";
    "create_testing_strategy"; "setup_devops"; "design_user_experience";
    "review_code" ].

(** The body of the loop of [parse_selection], for one [item] of the split
    selection; [selected] is the list built so far. *)
Definition parse_item (available_list : list string)
    (selected : list string) (item : string) : outcome (list string) :=
  let item := Str.strip item in
  if Str.isdigit item then
    n ← Str.int item;
    let idx := n - 1 in
    if (0 <=? idx) && (idx <? Z.of_nat (length available_list)) then
      x ← py_index available_list idx;
      Return (selected ++ [x])
    else Return selected
  else if py_in item available_list then Return (selected ++ [item])
  else Return selected.

Definition parse_selection (selection : string) (available_list : list string)
  : outcome (list string) :=
  for_each (parse_item available_list) [] (Str.split "," selection).

(** ** The outside world *)

(** A file holds text; a directory is known by the entries below it. *)
Inductive node :=
  | File (data : string)
  | Dir.

(** The file tree: from the names on the way down from the root to the node
    found there. The root (the empty list) is a directory and has no entry. *)
Abbreviation FS := (gmap (list string) node).

Definition node_at (fs : FS) (k : list string) : option node :=
  match k with
  | [] => Some Dir
  | _ => fs !! k
  end.

(** ** pathlib *)

Record Path := MkPath { anchored : bool; parts : list string }.

Definition is_part (c : string) : bool :=
  negb (String.eqb c "") && negb (String.eqb c ".").

(** [Path(s)]: the text is cut at the slashes; empty parts and [.] go. *)
Definition Path_of (s : string) : Path :=
  {| anchored := match s with String "/" _ => true | _ => false end;
     parts := List.filter is_part (Str.split "/" s) |}.

(** [str(p)] *)
Definition Path_str (p : Path) : string :=
  if anchored p then "/" +:+ Str.join "/" (parts p)
  else match parts p with
       | [] => "."
       | _ => Str.join "/" (parts p)
       end.

(** [p.parent] *)
Definition Path_parent (p : Path) : Path :=
  {| anchored := anchored p; parts := removelast (parts p) |}.

Definition Path_eqb (p q : Path) : bool :=
  Bool.eqb (anchored p) (anchored q) && bool_decide (parts p = parts q).

(** ** crew.py: agents, tasks and crews as data *)

Inductive llm_choice := general_llm | code_llm.

Record Agent := {
  agent_config : string;
  agent_llm : llm_choice
}.

Record Task := {
  task_config : string;
  task_agent : Agent;
  output_file : string
}.

(** A crew with [process=Process.sequential]: its tasks run in list order. *)
Record Crew := {
  agents : list Agent;
  tasks : list Task
}.

(** [subprocess.CompletedProcess] *)
Record CompletedProcess := {
  returncode : Z;
  stdout : string;
  stderr : string
}.

(** What [json()] may give back (numbers are integers). *)
#[local] Unset Elimination Schemes.
Inductive json :=
  | JNull
  | JBool (b : bool)
  | JNum (n : Z)
  | JStr (s : string)
  | JArr (l : list json)
  | JObj (fields : list (string * json)).
#[local] Set Elimination Schemes.

(** [requests.Response]: the status, the body, and what decoding the body as
    JSON does. *)
Record Response := {
  status_code : Z;
  content : string;
  json_of : outcome json
}.

(** What the program cannot decide: the procedures of [shutil] (given
    their arguments, the working directory and the file tree), [git] run as
    a subprocess in a directory, the network, the HTML parser
    ([soup_get_text] is [BeautifulSoup(content, 'html.parser')], the removal
    of the script and style elements and [get_text()]), how [str] prints a
    JSON list or object, and the agent framework ([crew_new] is
    [AiDevTeamCrew()], [crew_kickoff] builds the framework's crew from the
    agents and tasks and runs it on the project description). All but
    [json_repr] may raise; those that write do so on the file tree. *)
Record Host := {
  shutil_rmtree : Path -> list string -> FS -> outcome () * FS;
  shutil_copy2 : Path -> Path -> list string -> FS -> outcome () * FS;
  shutil_move : string -> string -> list string -> FS -> outcome () * FS;
  subprocess_run : list string -> Path -> FS -> outcome CompletedProcess * FS;
  requests_get : string -> list (string * string) -> outcome Response;
  soup_get_text : string -> outcome string;
  json_repr : json -> string;
  crew_new : outcome ();
  crew_kickoff : Crew -> string -> FS -> outcome string * FS
}.

Record World := {
  fs : FS;
  (** the working directory, which exists throughout *)
  cwd : list string;
  (** every subprocess started: its arguments and its directory, latest first *)
  procs : list (list string * list string);
  (** every URL requested, latest first *)
  requests : list string;
  (** the lines the user is still to type *)
  stdin : list string;
  host : Host
}.

Definition with_fs (w : World) (fs' : FS) : World :=
  {| fs := fs'; cwd := cwd w; procs := procs w; requests := requests w;
     stdin := stdin w; host := host w |}.

Definition with_proc (w : World) (p : list string * list string) : World :=
  {| fs := fs w; cwd := cwd w; procs := p :: procs w; requests := requests w;
     stdin := stdin w; host := host w |}.

Definition with_request (w : World) (url : string) : World :=
  {| fs := fs w; cwd := cwd w; procs := procs w; requests := url :: requests w;
     stdin := stdin w; host := host w |}.

Definition with_stdin (w : World) (lines : list string) : World :=
  {| fs := fs w; cwd := cwd w; procs := procs w; requests := requests w;
     stdin := lines; host := host w |}.

Definition M (A : Type) : Type := World -> outcome A * World.

#[global] Instance M_ret : MRet M := fun A a w => (Return a, w).
#[global] Instance M_bind : MBind M := fun A B f m w =>
  match m w with
  | (Return a, w') => f a w'
  | (Raise e, w') => (Raise e, w')
  end.

#[global] Instance M_fmap : FMap M := fun A B f m w =>
  match m w with
  | (Return a, w') => (Return (f a), w')
  | (Raise e, w') => (Raise e, w')
  end.

Definition raise {A : Type} (e : exn) : M A := fun w => (Raise e, w).

(** A computation that does not look at the world. *)
Definition lift {A : Type} (r : outcome A) : M A := fun w => (r, w).

(** [for x in l: s = body(s, x)] in the world. *)
Fixpoint for_each_M {A S : Type} (body : S -> A -> M S) (s : S) (l : list A) : M S :=
  match l with
  | [] => mret s
  | x :: l' => s' ← body s x; for_each_M body s' l'
  end.

(** [try: body  except Exception as e: handler(e)] *)
Definition try_except {A : Type} (body : M A) (handler : exn -> M A) : M A :=
  fun w =>
    match body w with
    | (Return a, w') => (Return a, w')
    | (Raise e, w') => handler e w'
    end.

(** Reading the world, and rewriting its file tree. *)
Definition ask {A : Type} (f : World -> A) : M A := fun w => (Return (f w), w).
Definition ask_outcome {A : Type} (f : World -> outcome A) : M A := fun w => (f w, w).
Definition on_fs {A : Type} (f : World -> outcome A * FS) : M A :=
  fun w => let '(r, fs') := f w in (r, with_fs w fs').

(** ** The system calls behind pathlib *)

(** The errors of the system calls, as Python raises them. *)
Definition ENOENT (p : Path) : exn :=
  Exn FileNotFoundError ("[Errno 2] No such file or directory: " +:+ Str.repr (Path_str p)).
Definition EEXIST (p : Path) : exn :=
  Exn FileExistsError ("[Errno 17] File exists: " +:+ Str.repr (Path_str p)).
Definition ENOTDIR (p : Path) : exn :=
  Exn NotADirectoryError ("[Errno 20] Not a directory: " +:+ Str.repr (Path_str p)).
Definition EISDIR (p : Path) : exn :=
  Exn IsADirectoryError ("[Errno 21] Is a directory: " +:+ Str.repr (Path_str p)).
Definition ENUL : exn := Exn ValueError "embedded null byte".

Definition is_OSError (e : exn) : bool :=
  match exn_cls e with
  | FileNotFoundError | FileExistsError | IsADirectoryError
  | NotADirectoryError | SameFileError | ShutilError
  | RequestException | JSONDecodeError => true
  | _ => false
  end.

Definition is_FileNotFoundError (e : exn) : bool :=
  match exn_cls e with
  | FileNotFoundError => true
  | _ => false
  end.

Definition has_nul (c : string) : bool :=
  negb (Str.forallb (fun a => negb (Ascii.eqb a "000")) c).

(** The walk of the system down the tree: from [cur], one name at a time;
    every node it passes through must be a directory, and [..] leads back up
    (the root is its own parent). *)
Fixpoint walk (p : Path) (t : FS) (cur : list string) (names : list string)
  : outcome (list string) :=
  match names with
  | [] => Return cur
  | c :: rest =>
      match node_at t cur with
      | Some Dir =>
          walk p t (if String.eqb c ".." then removelast cur else cur ++ [c]) rest
      | Some (File _) => Raise (ENOTDIR p)
      | None => Raise (ENOENT p)
      end
  end.

(** Where a path leads, from the root or from the working directory. *)
Definition locate (w : World) (p : Path) : outcome (list string) :=
  if existsb has_nul (parts p) then Raise ENUL
  else walk p (fs w) (if anchored p then [] else cwd w) (parts p).

(** [os.stat] *)
Definition stat (w : World) (p : Path) : outcome node :=
  k ← locate w p;
  match node_at (fs w) k with
  | Some n => Return n
  | None => Raise (ENOENT p)
  end.

(** [p.exists()] and [p.is_dir()]: a failed [stat] answers [False]. *)
Definition exists_in (w : World) (p : Path) : bool :=
  match stat w p with
  | Return _ => true
  | Raise _ => false
  end.

Definition is_dir_in (w : World) (p : Path) : bool :=
  match stat w p with
  | Return Dir => true
  | _ => false
  end.

Definition Path_exists (p : Path) : M bool := ask (fun w => exists_in w p).
Definition Path_is_dir (p : Path) : M bool := ask (fun w => is_dir_in w p).

(** [Path.cwd()] *)
Definition Path_cwd : M Path := ask (fun w => MkPath true (cwd w)).

(** [..] taken away by the text alone. *)
Fixpoint normalise (acc : list string) (names : list string) : list string :=
  match names with
  | [] => acc
  | c :: rest => normalise (if String.eqb c ".." then removelast acc else acc ++ [c]) rest
  end.

(** [p.resolve()]: absolute, without [..]; the path need not exist. *)
Definition resolved (w : World) (p : Path) : Path :=
  MkPath true (normalise (if anchored p then [] else cwd w) (parts p)).

Definition Path_resolve (p : Path) : M Path := ask (fun w => resolved w p).

(** [os.mkdir] *)
Definition os_mkdir (p : Path) : M () :=
  on_fs (fun w =>
    match locate w p with
    | Raise e => (Raise e, fs w)
    | Return k =>
        match node_at (fs w) k with
        | Some _ => (Raise (EEXIST p), fs w)
        | None => (Return (), <[k := Dir]> (fs w))
        end
    end).

(** With [exist_ok=True], an [OSError] other than a missing parent is
    forgiven when the directory is there. *)
Definition forgive_if_dir (p : Path) (e : exn) : M () :=
  if is_OSError e then
    Path_is_dir p ≫= fun d : bool => if d then mret () else raise e
  else raise e.

(** [p.mkdir(parents=False, exist_ok=True)] *)
Definition mkdir_exist_ok (p : Path) : M () :=
  try_except (os_mkdir p) (fun e =>
    if is_FileNotFoundError e then raise e
    else forgive_if_dir p e).

(** [p.mkdir(parents=True, exist_ok=True)]: when a parent is missing, the
    parents are made first; [n] bounds the climb by the number of parts. *)
Fixpoint mkdir_parents (n : nat) (p : Path) : M () :=
  try_except (os_mkdir p) (fun e =>
    if is_FileNotFoundError e then
      if Path_eqb (Path_parent p) p then raise e
      else match n with
           | O => raise e
           | S n' => mkdir_parents n' (Path_parent p);; mkdir_exist_ok p
           end
    else forgive_if_dir p e).

Definition Path_mkdir (p : Path) : M () := mkdir_parents (length (parts p)) p.

(** [p.touch()]: a path that is there is left as it is, else an empty file
    is made. *)
Definition Path_touch (p : Path) : M () :=
  on_fs (fun w =>
    match stat w p with
    | Return _ => (Return (), fs w)
    | Raise _ =>
        match locate w p with
        | Raise e => (Raise e, fs w)
        | Return k =>
            match node_at (fs w) k with
            | Some Dir => (Raise (EISDIR p), fs w)
            | _ => (Return (), <[k := File ""]> (fs w))
            end
        end
    end).

Definition CR : ascii := "013".
Definition LF : ascii := "010".

(** What a file opened for writing as text does to the text: every line
    feed becomes [os.linesep], which is a line feed here. *)
Definition linesep : string := String LF "".

Fixpoint newlines_out (s : string) : string :=
  match s with
  | EmptyString => EmptyString
  | String c s' =>
      if Ascii.eqb c LF then linesep +:+ newlines_out s'
      else String c (newlines_out s')
  end.

(** What a file opened for reading as text does (universal newlines): a
    carriage return, with the line feed after it if there is one, is read
    as one line feed. *)
Fixpoint newlines_in (s : string) : string :=
  match s with
  | EmptyString => EmptyString
  | String c s' =>
      if Ascii.eqb c CR then
        match s' with
        | String c' s'' =>
            if Ascii.eqb c' LF then String LF (newlines_in s'')
            else String LF (newlines_in s')
        | EmptyString => String LF EmptyString
        end
      else String c (newlines_in s')
  end.

(** [p.write_text(data, encoding='utf-8')] *)
Definition Path_write_text (p : Path) (data : string) : M () :=
  on_fs (fun w =>
    match locate w p with
    | Raise e => (Raise e, fs w)
    | Return k =>
        match node_at (fs w) k with
        | Some Dir => (Raise (EISDIR p), fs w)
        | _ => (Return (), <[k := File (newlines_out data)]> (fs w))
        end
    end).

(** [p.read_text(encoding='utf-8')] *)
Definition Path_read_text (p : Path) : M string :=
  ask_outcome (fun w =>
    k ← locate w p;
    match node_at (fs w) k with
    | Some (File data) => Return (newlines_in data)
    | Some Dir => Raise (EISDIR p)
    | None => Raise (ENOENT p)
    end).

(** [p.unlink()] *)
Definition Path_unlink (p : Path) : M () :=
  on_fs (fun w =>
    match locate w p with
    | Raise e => (Raise e, fs w)
    | Return k =>
        match node_at (fs w) k with
        | Some (File _) => (Return (), delete k (fs w))
        | Some Dir => (Raise (EISDIR p), fs w)
        | None => (Raise (ENOENT p), fs w)
        end
    end).

(** The entries of the directory at [k]: their names, and whether each is a
    directory. *)
Definition entries (t : FS) (k : list string) : list (string * bool) :=
  omap (fun '(k', n) =>
          match last k' with
          | Some name =>
              if bool_decide (removelast k' = k)
              then Some (name, match n with Dir => true | File _ => false end)
              else None
          | None => None
          end)
       (map_to_list t).

(** [list(p.iterdir())], each entry with its [is_dir()]. *)
Definition Path_iterdir (p : Path) : M (list (string * bool)) :=
  ask_outcome (fun w =>
    k ← locate w p;
    match node_at (fs w) k with
    | Some Dir => Return (entries (fs w) k)
    | Some (File _) => Raise (ENOTDIR p)
    | None => Raise (ENOENT p)
    end).

(** The procedures of [shutil]: given their arguments, the working
    directory and the file tree. *)
Definition shutil (f : Host -> list string -> FS -> outcome () * FS) : M () :=
  on_fs (fun w => f (host w) (cwd w) (fs w)).

(** [subprocess.run(argv, capture_output=True, text=True, cwd=dir)]: the
    call is logged, then answered by the host. *)
Definition subprocess_run_in (argv : list string) (dir : Path) : M CompletedProcess :=
  fun w =>
    let '(r, fs') := subprocess_run (host w) argv dir (fs w) in
    (r, with_proc (with_fs w fs') (argv, parts dir)).

(** [requests.get(url, headers=headers, timeout=10)]: logged, then answered
    by the host. *)
Definition requests_get_url (url : string) (headers : list (string * string)) : M Response :=
  fun w => (requests_get (host w) url headers, with_request w url).

(** ** tools/file_system_tool.py *)

Module FileSystemTool.

Definition item_line (item : string * bool) : string :=
  (if item.2 then "DIR" else "FILE") +:+ ": " +:+ item.1.

Definition _run (operation path : string) (content destination : option string)
  : M string :=
  try_except
    (let path_obj := Path_of path in
     if String.eqb operation "create_file" then
       Path_mkdir (Path_parent path_obj);;
       Path_touch path_obj;;
       mret ("File created: " +:+ path)
     else if String.eqb operation "read_file" then
       Path_exists path_obj ≫= fun found : bool =>
       if negb found then mret ("File not found: " +:+ path)
       else Path_read_text path_obj
     else if String.eqb operation "write_file" then
       match content with
       | None => mret "Content is required for write operation"
       | Some content =>
           Path_mkdir (Path_parent path_obj);;
           Path_write_text path_obj content;;
           mret ("Content written to: " +:+ path)
       end
     else if String.eqb operation "delete_file" then
       Path_exists path_obj ≫= fun found : bool =>
       if found then
         Path_unlink path_obj;;
         mret ("File deleted: " +:+ path)
       else mret ("File not found: " +:+ path)
     else if String.eqb operation "create_dir" then
       Path_mkdir path_obj;;
       mret ("Directory created: " +:+ path)
     else if String.eqb operation "delete_dir" then
       Path_exists path_obj ≫= fun found : bool =>
       if found then
         shutil (fun h => shutil_rmtree h path_obj);;
         mret ("Directory deleted: " +:+ path)
       else mret ("Directory not found: " +:+ path)
     else if String.eqb operation "list_dir" then
       Path_exists path_obj ≫= fun found : bool =>
       if negb found then mret ("Directory not found: " +:+ path)
       else
         items ← Path_iterdir path_obj;
         mret (Str.join nl (item_line <$> items))
     else if String.eqb operation "copy_file" then
       match destination with
       | None => mret "Destination is required for copy operation"
       | Some destination =>
           Path_exists path_obj ≫= fun found : bool =>
           if negb found then mret ("Source file not found: " +:+ path)
           else
             let dest_obj := Path_of destination in
             Path_mkdir (Path_parent dest_obj);;
             shutil (fun h => shutil_copy2 h path_obj dest_obj);;
             mret ("File copied from " +:+ path +:+ " to " +:+ destination)
       end
     else if String.eqb operation "move_file" then
       match destination with
       | None => mret "Destination is required for move operation"
       | Some destination =>
           Path_exists path_obj ≫= fun found : bool =>
           if negb found then mret ("Source file not found: " +:+ path)
           else
             let dest_obj := Path_of destination in
             Path_mkdir (Path_parent dest_obj);;
             shutil (fun h => shutil_move h (Path_str path_obj) (Path_str dest_obj));;
             mret ("File moved from " +:+ path +:+ " to " +:+ destination)
       end
     else mret ("Unknown operation: " +:+ operation))
    (fun e => mret ("Error executing " +:+ operation +:+ ": " +:+ exn_str e)).

End FileSystemTool.

(** ** tools/git_tool.py *)

(** Python's truth of an optional text: [None] and the empty text are false. *)
Definition truthy (s : option string) : bool :=
  match s with
  | Some (String _ _) => true
  | _ => false
  end.

Definition text_of (s : option string) : string := default "" s.

Module GitTool.

(** Where the dispatch leaves the function: at a [return], or with
    [result] bound. *)
Inductive flow :=
  | Returned (s : string)
  | Bound (result : CompletedProcess).

Definition git (argv : list string) (dir : Path) : M flow :=
  Bound <$> subprocess_run_in ("git" :: argv) dir.

Definition _run (operation path : string) (message branch remote_url : option string)
  : M string :=
  try_except
    (original_dir ← Path_cwd;
     repo_path ← Path_resolve (Path_of path);
     step ←
       (if String.eqb operation "clone" && truthy remote_url then
          git ["clone"; text_of remote_url; Path_str repo_path] original_dir
        else
          Path_exists repo_path ≫= fun found : bool =>
          if negb found then mret (Returned ("Path does not exist: " +:+ path))
          else if String.eqb operation "init" then git ["init"] repo_path
          else if String.eqb operation "add" then git ["add"; "."] repo_path
          else if String.eqb operation "commit" then
            if negb (truthy message) then mret (Returned "Commit message is required")
            else git ["commit"; "-m"; text_of message] repo_path
          else if String.eqb operation "push" then git ["push"] repo_path
          else if String.eqb operation "pull" then git ["pull"] repo_path
          else if String.eqb operation "status" then git ["status"] repo_path
          else if String.eqb operation "branch" then
            if truthy branch then git ["branch"; text_of branch] repo_path
            else git ["branch"] repo_path
          else if String.eqb operation "checkout" then
            if negb (truthy branch) then
              mret (Returned "Branch name is required for checkout")
            else git ["checkout"; text_of branch] repo_path
          else mret (Returned ("Unknown Git operation: " +:+ operation)));
     match step with
     | Returned s => mret s
     | Bound result =>
         if returncode result =? 0 then
           mret ("Git " +:+ operation +:+ " successful:" +:+ nl +:+ stdout result)
         else
           mret ("Git " +:+ operation +:+ " failed:" +:+ nl +:+ stderr result)
     end)
    (fun e => mret ("Error executing Git " +:+ operation +:+ ": " +:+ exn_str e)).

End GitTool.

(** ** tools/web_research_tool.py *)

Module Json.

(** Python's truth of a decoded value. *)
Definition truth (j : json) : bool :=
  match j with
  | JNull => false
  | JBool b => b
  | JNum n => negb (n =? 0)
  | JStr s => negb (String.eqb s "")
  | JArr l => match l with [] => false | _ => true end
  | JObj f => match f with [] => false | _ => true end
  end.

(** The value a [dict] holds for a key: of two fields of one name the
    later one counts. *)
Fixpoint field (key : string) (fields : list (string * json)) : option json :=
  match fields with
  | [] => None
  | (k, v) :: rest =>
      match field key rest with
      | Some v' => Some v'
      | None => if String.eqb k key then Some v else None
      end
  end.

(** [data.get(key)] *)
Definition get (data : json) (key : string) : outcome json :=
  match data with
  | JObj fields => Return (default JNull (field key fields))
  | _ => Raise (Exn AttributeError "object has no attribute 'get'")
  end.

(** [data[key]] for a text key *)
Definition item (data : json) (key : string) : outcome json :=
  match data with
  | JObj fields =>
      match field key fields with
      | Some v => Return v
      | None => Raise (Exn KeyError (Str.repr key))
      end
  | JArr _ | JStr _ =>
      Raise (Exn TypeError "indices must be integers or slices, not str")
  | _ => Raise (Exn TypeError "object is not subscriptable")
  end.

(** [list(v[:5])]: the first five items of a list, the first five
    characters of a text; nothing else can be sliced. *)
Definition first5 (v : json) : outcome (list json) :=
  match v with
  | JArr l => Return (List.firstn 5 l)
  | JStr s => Return ((fun c => JStr (String c EmptyString)) <$>
                      list_ascii_of_string (Str.take 5 s))
  | JObj _ => Raise (Exn TypeError "unhashable type: 'slice'")
  | _ => Raise (Exn TypeError "object is not subscriptable")
  end.

(** [str(v)], as an f-string prints it. *)
Definition str (h : Host) (v : json) : string :=
  match v with
  | JStr s => s
  | JNum n => Str.of_Z n
  | JBool true => "True"
  | JBool false => "False"
  | JNull => "None"
  | _ => json_repr h v
  end.

End Json.

Module WebResearchTool.

(** The body of the loop over [data['RelatedTopics'][:5]]. *)
Definition add_topic (h : Host) (result : string) (topic : json) : outcome string :=
  match topic with
  | JObj fields =>
      match Json.field "Text" fields with
      | Some _ =>
          text ← Json.item topic "Text";
          Return (result +:+ "- " +:+ Json.str h text +:+ nl)
      | None => Return result
      end
  | _ => Return result
  end.

(** What [_search_web] makes of the decoded answer. *)
Definition search_report (h : Host) (query : string) (data : json) : outcome string :=
  let result := "Search results for: " +:+ query +:+ nl +:+ nl in
  abstract ← Json.get data "Abstract";
  result ← (if Json.truth abstract then
              v ← Json.item data "Abstract";
              Return (result +:+ "Summary: " +:+ Json.str h v +:+ nl +:+ nl)
            else Return result);
  related ← Json.get data "RelatedTopics";
  result ← (if Json.truth related then
              let result := result +:+ "Related Topics:" +:+ nl in
              v ← Json.item data "RelatedTopics";
              topics ← Json.first5 v;
              for_each (add_topic h) result topics
            else Return result);
  Return (if Str.len result >? 50 then result
          else "No detailed results found for this query").

Definition _search_web (query : string) : M string :=
  try_except
    (let url := "https://api.duckduckgo.com/?q=" +:+ query
                +:+ "&format=json&no_html=1&skip_disambig=1" in
     response ← requests_get_url url [];
     if status_code response =? 200 then
       data ← lift (json_of response);
       h ← ask host;
       lift (search_report h query data)
     else
       mret ("Search failed with status code: " +:+ Str.of_Z (status_code response)))
    (fun e => mret ("Error searching web: " +:+ exn_str e)).

(** The cleaning of the page text in [_scrape_url]. *)
Definition clean_text (text : string) : string :=
  let lines := Str.strip <$> Str.splitlines text in
  let chunks := lines ≫= fun line => Str.strip <$> Str.split_spaces line in
  Str.join nl (List.filter (fun chunk => negb (String.eqb chunk "")) chunks).

Definition limit_text (text : string) : string :=
  if Str.len text >? 2000 then Str.take 2000 text +:+ "... (truncated)" else text.

Definition _scrape_url (url : string) : M string :=
  try_except
    (let headers :=
       [("User-Agent", "Mozilla/5.0 (Windows NT 10.0; Win64; x64) AppleWebKit/537.36")] in
     response ← requests_get_url url headers;
     if status_code response =? 200 then
       h ← ask host;
       text ← lift (soup_get_text h (content response));
       let text := limit_text (clean_text text) in
       mret ("Content from " +:+ url +:+ ":" +:+ nl +:+ nl +:+ text)
     else
       mret ("Failed to scrape URL. Status code: " +:+ Str.of_Z (status_code response)))
    (fun e => mret ("Error scraping URL: " +:+ exn_str e)).

Definition _search_documentation (query : string) : M string :=
  try_except
    (let doc_sites :=
       [ "site:docs.python.org " +:+ query;
         "site:developer.mozilla.org " +:+ query;
         "site:stackoverflow.com " +:+ query;
         "site:github.com " +:+ query ] in
     results ←
       for_each_M (fun results site_query =>
         try_except
           (search_result ← _search_web site_query;
            if negb (String.eqb search_result "")
               && negb (Str.contains "No detailed results" search_result)
            then mret (results ++ [search_result])
            else mret results)
           (fun _ => mret results))
         [] (List.firstn 2 doc_sites);
     match results with
     | [] => mret ("No documentation found for: " +:+ query)
     | _ => mret (Str.join (nl +:+ nl) results)
     end)
    (fun e => mret ("Error searching documentation: " +:+ exn_str e)).

Definition _run (operation query : string) (url : option string) : M string :=
  try_except
    (if String.eqb operation "search" then _search_web query
     else if String.eqb operation "scrape" && truthy url then _scrape_url (text_of url)
     else if String.eqb operation "documentation" then _search_documentation query
     else mret ("Unknown operation: " +:+ operation))
    (fun e => mret ("Error in web research: " +:+ exn_str e)).

End WebResearchTool.

(** ** crew.py *)

Module AiDevTeamCrew.

Definition agent (name : string) (l : llm_choice) : Agent :=
  {| agent_config := name; agent_llm := l |}.

Definition senior_developer := agent "senior_developer" code_llm.
Definition frontend_developer := agent "frontend_developer" code_llm.
Definition backend_developer := agent "backend_developer" code_llm.
Definition devops_engineer := agent "devops_engineer" general_llm.
Definition qa_engineer := agent "qa_engineer" general_llm.
Definition tech_lead := agent "tech_lead" general_llm.
Definition business_analyst := agent "business_analyst" general_llm.
Definition security_specialist := agent "security_specialist" general_llm.
Definition database_admin := agent "database_admin" general_llm.
Definition ui_ux_designer := agent "ui_ux_designer" general_llm.

Definition task (name : string) (a : Agent) (file : string) : Task :=
  {| task_config := name; task_agent := a; output_file := file |}.

Definition analyze_project :=
  task "analyze_project" business_analyst "output/project_analysis.md".
Definition design_architecture :=
  task "design_architecture" tech_lead "output/architecture_design.md".
Definition develop_backend :=
  task "develop_backend" backend_developer "output/backend_implementation.md".
Definition develop_frontend :=
  task "develop_frontend" frontend_developer "output/frontend_implementation.md".
Definition design_database :=
  task "design_database" database_admin "output/database_design.md".
Definition assess_security :=
  task "assess_security" security_specialist "output/security_assessment.md".
Definition create_testing_strategy :=
  task "create_testing_strategy" qa_engineer "output/testing_strategy.md".
Definition setup_devops :=
  task "setup_devops" devops_engineer "output/devops_setup.md".
Definition design_user_experience :=
  task "design_user_experience" ui_ux_designer "output/ux_design.md".
Definition review_code :=
  task "review_code" senior_developer "output/code_review.md".

(** [self.agents] and [self.tasks]: the decorated methods in the order
    of their definition. *)
Definition all_agents : list Agent :=
  [ senior_developer; frontend_developer; backend_developer; devops_engineer;
    qa_engineer; tech_lead; business_analyst; security_specialist;
    database_admin; ui_ux_designer ].

Definition all_tasks : list Task :=
  [ analyze_project; design_architecture; develop_backend; develop_frontend;
    design_database; assess_security; create_testing_strategy; setup_devops;
    design_user_experience; review_code ].

Definition crew : Crew := {| agents := all_agents; tasks := all_tasks |}.

Definition agent_map : gmap string Agent :=
  list_to_map ((fun a => (agent_config a, a)) <$> all_agents).

Definition task_map : gmap string Task :=
  list_to_map ((fun t => (task_config t, t)) <$> all_tasks).

(** [d[key]] *)
Definition dict_item {V : Type} (d : gmap string V) (key : string) : outcome V :=
  match d !! key with
  | Some v => Return v
  | None => Raise (Exn KeyError (Str.repr key))
  end.

(** [[d[name]() for name in names if name in d]] *)
Definition pick {V : Type} (d : gmap string V) (names : list string) : outcome (list V) :=
  mapM (dict_item d) (List.filter (fun name => bool_decide (is_Some (d !! name))) names).

Definition create_custom_crew (agents_list tasks_list : list string) : outcome Crew :=
  selected_agents ← pick agent_map agents_list;
  selected_tasks ← pick task_map tasks_list;
  Return {| agents := selected_agents; tasks := selected_tasks |}.

End AiDevTeamCrew.

(** ** main.py: the entry points *)

(** How a function of the script ends: with a value, by [sys.exit], or by
    an exception nobody caught. *)
Inductive ending (A : Type) :=
  | Finished (a : A)
  | Exited (code : Z)
  | Crashed (e : exn).
Arguments Finished {A} a.
Arguments Exited {A} code.
Arguments Crashed {A} e.

Definition Script (A : Type) : Type := World -> ending A * World.

#[global] Instance Script_ret : MRet Script := fun A a w => (Finished a, w).
#[global] Instance Script_bind : MBind Script := fun A B f m w =>
  match m w with
  | (Finished a, w') => f a w'
  | (Exited c, w') => (Exited c, w')
  | (Crashed e, w') => (Crashed e, w')
  end.

(** [sys.exit(code)] *)
Definition sys_exit {A : Type} (code : Z) : Script A := fun w => (Exited code, w).

(** A computation of the world, run in the script: what it raises is in
    flight. *)
Definition run {A : Type} (m : M A) : Script A := fun w =>
  match m w with
  | (Return a, w') => (Finished a, w')
  | (Raise e, w') => (Crashed e, w')
  end.

(** [try: body  except Exception as e: handler(e)]; [sys.exit] is not an
    [Exception] and passes. *)
Definition try_script {A : Type} (body : Script A) (handler : exn -> Script A) : Script A :=
  fun w =>
    match body w with
    | (Crashed e, w') => handler e w'
    | r => r
    end.

(** [input(prompt)]: the next line typed, or [EOFError] when there is none. *)
Definition input : M string := fun w =>
  match stdin w with
  | line :: rest => (Return line, with_stdin w rest)
  | [] => (Raise (Exn EOFError "EOF when reading a line"), w)
  end.

(** [crew.kickoff(inputs={'project_description': d})] *)
Definition kickoff (c : Crew) (project_description : string) : M string :=
  on_fs (fun w => crew_kickoff (host w) c project_description (fs w)).

(** [AiDevTeamCrew()] *)
Definition new_crew : M () := ask_outcome (fun w => crew_new (host w)).

(** [main()], with [sys.argv] as [argv]. What is only written to the
    terminal (the [print] calls, the listing of [output/*.md]) and
    [load_dotenv()] are left out. *)
Definition main (argv : list string) : Script string :=
  project_description ←
    (if 1 <? Z.of_nat (length argv) then mret (Str.join " " (tail argv))
     else run input);
  if String.eqb (Str.strip project_description) "" then sys_exit 1
  else
    let output_dir := Path_of "output" in
    run (mkdir_exist_ok output_dir);;
    try_script
      (run new_crew;;
       let crew := AiDevTeamCrew.crew in
       result ← run (kickoff crew project_description);
       mret result)
      (fun e => sys_exit 1).

(** [run_custom_workflow()] *)
Definition run_custom_workflow : Script string :=
  agent_selection ← run (Str.strip <$> input);
  task_selection ← run (Str.strip <$> input);
  project_description ← run (Str.strip <$> input);
  if String.eqb agent_selection "" || String.eqb task_selection ""
     || String.eqb project_description "" then sys_exit 1
  else
    selected_agents ← run (lift (parse_selection agent_selection available_agents));
    selected_tasks ← run (lift (parse_selection task_selection available_tasks));
    match selected_agents, selected_tasks with
    | [], _ | _, [] => sys_exit 1
    | _, _ =>
        try_script
          (run new_crew;;
           custom_crew ← run (lift (AiDevTeamCrew.create_custom_crew
                                      selected_agents selected_tasks));
           result ← run (kickoff custom_crew project_description);
           mret result)
          (fun e => sys_exit 1)
    end.

(** [if __name__ == "__main__": ...] *)
Definition script (argv : list string) : Script string :=
  match argv with
  | _ :: flag :: _ =>
      if String.eqb flag "--custom" then run_custom_workflow else main argv
  | _ => main argv
  end.

(** The exit status of the interpreter: 0 at the end of the script, the
    argument of [sys.exit], 1 after an exception nobody caught. *)
Definition exit_code {A : Type} (e : ending A) : Z :=
  match e with
  | Finished _ => 0
  | Exited code => code
  | Crashed _ => 1
  end.

(** ** tools/code_analysis_tool.py *)

(** The nodes [ast.walk] yields, as far as the analysis tells them apart:
    class definitions, function definitions ([def], not [async def]),
    [import] with the names it lists, [from ... import] with its module,
    and every other node. *)
Inductive ast_node :=
  | ClassDef (name : string)
  | FunctionDef (name : string)
  | Import (names : list string)
  | ImportFrom (module : option string)
  | OtherNode.

(** What the interpreter contributes to the analysis: [ast_nodes content]
    is [list(ast.walk(ast.parse(content)))], or what [ast.parse] raises;
    [percent_1f a b] is the text of [f"{a / b * 100:.1f}"], or what the
    division raises. *)
Record Interp := {
  ast_nodes : string -> outcome (list ast_node);
  percent_1f : Z -> Z -> outcome string
}.

(** [p.name] *)
Definition Path_name (p : Path) : string := default "" (last (parts p)).

(** [subprocess.run(argv, capture_output=True, text=True)]: the subprocess
    runs in the working directory. *)
Definition subprocess_run_here (argv : list string) : M CompletedProcess :=
  dir ← Path_cwd; subprocess_run_in argv dir.

Module CodeAnalysisTool.

(** The three lists of [_analyze_python_structure], as the loop over the
    nodes fills them. *)
Record names := {
  classes : list string;
  functions : list string;
  imports : list string
}.

Definition collect (found : names) (node : ast_node) : names :=
  match node with
  | ClassDef name =>
      {| classes := classes found ++ [name]; functions := functions found;
         imports := imports found |}
  | FunctionDef name =>
      {| classes := classes found; functions := functions found ++ [name];
         imports := imports found |}
  | Import aliases =>
      {| classes := classes found; functions := functions found;
         imports := imports found ++ aliases |}
  | ImportFrom module =>
      {| classes := classes found; functions := functions found;
         imports := imports found ++ [default "" module] |}
  | OtherNode => found
  end.

Definition listing (label : string) (l : list string) : string :=
  label +:+ " (" +:+ Str.of_Z (Z.of_nat (length l)) +:+ "): " +:+ Str.join ", " l.

Definition _analyze_python_structure (ip : Interp) (file_path : Path) : M string :=
  try_except
    (content ← Path_read_text file_path;
     tree ← lift (ast_nodes ip content);
     let found := fold_left collect tree {| classes := []; functions := []; imports := [] |} in
     mret ("Python Structure Analysis for " +:+ Path_name file_path +:+ ":" +:+ nl
           +:+ listing "Classes" (classes found) +:+ nl
           +:+ listing "Functions" (functions found) +:+ nl
           +:+ listing "Imports" (imports found)))
    (fun e => mret ("Error analyzing Python structure: " +:+ exn_str e)).

Definition _analyze_python_complexity (file_path : Path) : M string :=
  try_except
    (result ← subprocess_run_here
                ["python"; "-m"; "mccabe"; "--min"; "5"; Path_str file_path];
     if returncode result =? 0 then
       if negb (String.eqb (Str.strip (stdout result)) "") then
         mret ("Complexity Analysis:" +:+ nl +:+ stdout result)
       else mret "No complex functions found (complexity < 5)"
     else
       mret "McCabe complexity analysis not available (install mccabe: pip install mccabe)")
    (fun e => mret ("Error analyzing complexity: " +:+ exn_str e)).

Definition _lint_python_code (file_path : Path) : M string :=
  try_except
    (result ← subprocess_run_here ["python"; "-m"; "flake8"; Path_str file_path];
     if negb (String.eqb (Str.strip (stdout result)) "") then
       mret ("Linting Issues:" +:+ nl +:+ stdout result)
     else mret "No linting issues found")
    (fun e => mret ("Error linting code: " +:+ exn_str e)).

(** The counts of [_analyze_code_quality]: all lines, blank lines, and
    lines whose first character after the white space is [#]. *)
Definition is_blank_line (line : string) : bool := String.eqb (Str.strip line) "".
Definition is_comment_line (line : string) : bool := Str.startswith "#" (Str.strip line).

Definition total_lines (content : string) : Z :=
  Z.of_nat (length (Str.split "010" content)).
Definition blank_lines (content : string) : Z :=
  Z.of_nat (length (List.filter is_blank_line (Str.split "010" content))).
Definition comment_lines (content : string) : Z :=
  Z.of_nat (length (List.filter is_comment_line (Str.split "010" content))).

Definition _analyze_code_quality (ip : Interp) (file_path : Path) (language : string)
  : M string :=
  try_except
    (content ← Path_read_text file_path;
     let total := total_lines content in
     let blank := blank_lines content in
     let comment := comment_lines content in
     ratio ← lift (percent_1f ip comment total);
     mret ("Code Quality Analysis for " +:+ Path_name file_path +:+ ":" +:+ nl
           +:+ "Total lines: " +:+ Str.of_Z total +:+ nl
           +:+ "Blank lines: " +:+ Str.of_Z blank +:+ nl
           +:+ "Comment lines: " +:+ Str.of_Z comment +:+ nl
           +:+ "Code lines: " +:+ Str.of_Z (total - blank - comment) +:+ nl
           +:+ "Comment ratio: " +:+ ratio +:+ "%"))
    (fun e => mret ("Error analyzing code quality: " +:+ exn_str e)).

Definition _run (ip : Interp) (operation file_path language : string) : M string :=
  try_except
    (let path_obj := Path_of file_path in
     Path_exists path_obj ≫= fun found : bool =>
     if negb found then mret ("File not found: " +:+ file_path)
     else if String.eqb operation "structure" && String.eqb language "python" then
       _analyze_python_structure ip path_obj
     else if String.eqb operation "complexity" && String.eqb language "python" then
       _analyze_python_complexity path_obj
     else if String.eqb operation "lint" && String.eqb language "python" then
       _lint_python_code path_obj
     else if String.eqb operation "quality" then
       _analyze_code_quality ip path_obj language
     else
       mret ("Analysis operation '" +:+ operation +:+ "' not supported for " +:+ language))
    (fun e => mret ("Error analyzing code: " +:+ exn_str e)).

End CodeAnalysisTool.

(** ** setup_dev_team.py: the check of the requirements *)

(** An item of a tuple: a number or a text. *)
Inductive item :=
  | IInt (n : Z)
  | IStr (s : string).

Definition item_eqb (a b : item) : bool :=
  match a, b with
  | IInt m, IInt n => m =? n
  | IStr s, IStr t => String.eqb s t
  | _, _ => false
  end.

(** [a < b] on two items: numbers by size, texts by code points; a number
    and a text cannot be ordered. *)
Definition item_ltb (a b : item) : outcome bool :=
  match a, b with
  | IInt m, IInt n => Return (m <? n)
  | IStr s, IStr t => Return (String.ltb s t)
  | _, _ => Raise (Exn TypeError "'<' not supported between instances of 'int' and 'str'")
  end.

(** [a < b] on tuples: the first items that differ decide; when one tuple
    is the beginning of the other, the shorter one is the smaller. *)
Fixpoint tuple_ltb (a b : list item) : outcome bool :=
  match a, b with
  | x :: a', y :: b' => if item_eqb x y then tuple_ltb a' b' else item_ltb x y
  | [], _ :: _ => Return true
  | _, [] => Return false
  end.

(** [a >= b] on tuples *)
Fixpoint tuple_geb (a b : list item) : outcome bool :=
  match a, b with
  | x :: a', y :: b' => if item_eqb x y then tuple_geb a' b' else item_ltb y x
  | [], _ :: _ => Return false
  | _, [] => Return true
  end.

(** [sys.version_info] *)
Record version_info := {
  major : Z;
  minor : Z;
  micro : Z;
  releaselevel : string;
  serial : Z
}.

Definition as_tuple (v : version_info) : list item :=
  [IInt (major v); IInt (minor v); IInt (micro v); IStr (releaselevel v); IInt (serial v)].

Module DevTeamSetup.

(** The test on the version in [check_system_requirements]:
    [python_version < (3, 10) or python_version >= (3, 14)]. *)
Definition version_refused (python_version : version_info) : outcome bool :=
  tuple_ltb (as_tuple python_version) [IInt 3; IInt 10] ≫= fun low : bool =>
  if low then Return true
  else tuple_geb (as_tuple python_version) [IInt 3; IInt 14].

(** [check_system_requirements()], with [sys.version_info] as argument;
    [subprocess.run(..., check=True)] raises [CalledProcessError] on a
    return code other than 0, and the handler takes that and a missing
    program for the same. *)
Definition check_system_requirements (python_version : version_info) : Script () :=
  run (lift (version_refused python_version)) ≫= fun refused : bool =>
  if refused then sys_exit 1
  else
    try_script
      (result ← run (subprocess_run_here ["git"; "--version"]);
       if returncode result =? 0 then mret () else sys_exit 1)
      (fun e => if is_FileNotFoundError e then sys_exit 1
                else fun w => (Crashed e, w)).

(** The models of [setup_ollama_models] *)
Definition models : list string := ["llama3.2:3b"; "codellama:7b"; "mistral:7b"].

(** The loop of [setup_ollama_models] over the models that are left:
    [subprocess.run(["ollama", "pull", model], check=True)] raises
    [CalledProcessError] on a return code other than 0, which the handler in
    the loop takes; what starting the program raises is not taken. *)
Fixpoint pull (left : list string) : M () :=
  match left with
  | [] => mret ()
  | model :: rest =>
      result ← subprocess_run_here ["ollama"; "pull"; model];
      (if returncode result =? 0 then mret () else mret ());;
      pull rest
  end.

(** [setup_ollama_models()] *)
Definition setup_ollama_models : M () := pull models.

End DevTeamSetup.

(** ** A small world to run the code in *)

Definition quiet_host : Host := {|
  shutil_rmtree := fun _ _ t => (Return (), t);
  shutil_copy2 := fun _ _ _ t => (Return (), t);
  shutil_move := fun _ _ _ t => (Return (), t);
  subprocess_run := fun _ _ t =>
    (Return {| returncode := 0; stdout := ""; stderr := "" |}, t);
  requests_get := fun _ _ => Raise (Exn RequestException "connection refused");
  soup_get_text := fun page => Return page;
  json_repr := fun _ => "[...]";
  crew_new := Return ();
  crew_kickoff := fun _ _ t => (Return "OK", t)
|}.

(** The working directory [/home/dev] holds the directory [repo] and the
    file [notes.txt]. *)
Definition desk : World := {|
  fs := list_to_map
          [ (["home"], Dir); (["home"; "dev"], Dir);
            (["home"; "dev"; "repo"], Dir);
            (["home"; "dev"; "notes.txt"], File "to do") ];
  cwd := ["home"; "dev"];
  procs := [];
  requests := [];
  stdin := [];
  host := quiet_host
|}.

(** * What the statements speak of *)

(** ** Answers of the adapters *)

(** The five texts by which an adapter says that an argument is missing. *)
Definition missing_argument_texts : list string :=
  [ "Content is required for write operation";
    "Destination is required for copy operation";
    "Destination is required for move operation";
    "Commit message is required";
    "Branch name is required for checkout" ].

Definition says_missing_argument (s : string) : bool :=
  bool_decide (s ∈ missing_argument_texts).

(** The text by which the file and web adapters refuse an operation name
    they do not know. *)
Definition says_unknown_operation (s : string) : bool :=
  Str.startswith "Unknown operation: " s.

(** The operation names the file adapter knows. *)
Definition file_operations : list string :=
  [ "create_file"; "read_file"; "write_file"; "delete_file"; "create_dir";
    "delete_dir"; "list_dir"; "copy_file"; "move_file" ].

(** No character of [s] is a carriage return. *)
Definition no_carriage_return (s : string) : bool :=
  Str.forallb (fun c => negb (Ascii.eqb c CR)) s.

(** ** Selections *)

(** What one item of the selection adds to the list. *)
Definition entry (available_list : list string) (item : string) : outcome (list string) :=
  parse_item available_list [] item.

(** The one-character text U+00B2, SUPERSCRIPT TWO. *)
Definition superscript_two : string := String "178" "".

(** An item that [isdigit] takes for a number is a decimal numeral. *)
Definition plain_item (item : string) : bool :=
  let t := Str.strip item in
  negb (Str.isdigit t) || Str.forallb Str.isdecimal t.

(** The place of a name in a registry. *)
Fixpoint position (name : string) (registry : list string) : option nat :=
  match registry with
  | [] => None
  | x :: rest => if String.eqb x name then Some O else S <$> position name rest
  end.

Fixpoint ascending (l : list nat) : bool :=
  match l with
  | a :: (b :: _) as rest => (a <=? b)%nat && ascending rest
  | _ => true
  end.

(** The names come in the relative order the registry gives them. *)
Definition in_registry_order (registry names : list string) : bool :=
  ascending (omap (fun name => position name registry) names).

(** The crew the custom workflow builds from the two validated lists. *)
Definition custom_crew (selected_agents selected_tasks : list string) : Crew :=
  {| agents := omap (fun name => AiDevTeamCrew.agent_map !! name) selected_agents;
     tasks := omap (fun name => AiDevTeamCrew.task_map !! name) selected_tasks |}.

(** ** Runs of the script *)

(** The description is empty or white space only. *)
Definition blank (d : string) : bool := String.eqb (Str.strip d) "".

(** The description [main] works on: the arguments joined, or else the next
    line typed, if there is one; and the world once it is read. *)
Definition description_of (argv : list string) (w : World) : option string :=
  if 1 <? Z.of_nat (length argv) then Some (Str.join " " (tail argv))
  else head (stdin w).

Definition description_read (argv : list string) (w : World) : World :=
  if 1 <? Z.of_nat (length argv) then w else with_stdin w (tail (stdin w)).

(** Making the directory [output] raises. *)
Definition output_dir_fails (w : World) : Prop :=
  exists e, (mkdir_exist_ok (Path_of "output") w).1 = Raise e.

(** Building the crew object or running the crew raises. *)
Definition crew_fails (c : Crew) (d : string) (w : World) : Prop :=
  (exists e, crew_new (host w) = Raise e)
  \/ (exists e, (crew_kickoff (host w) c d (fs w)).1 = Raise e).

(** The desk, with a file where [main] wants its directory [output]. *)
Definition desk_with_output_file : World :=
  with_fs desk (<[ ["home"; "dev"; "output"] := File "log" ]> (fs desk)).

(** ** Files and directories that are there *)

(** [p] leads to a regular file. *)
Definition is_file_in (w : World) (p : Path) : bool :=
  match stat w p with
  | Return (File _) => true
  | _ => false
  end.

(** ** Git commands *)

(** The arguments after [git] for an operation run in the repository, when
    there is one: nothing for a commit without message, a checkout without
    branch, a clone, or a name that is not known. *)
Definition git_command (operation : string) (message branch : option string)
  : option (list string) :=
  if String.eqb operation "init" then Some ["init"]
  else if String.eqb operation "add" then Some ["add"; "."]
  else if String.eqb operation "commit" then
    if truthy message then Some ["commit"; "-m"; text_of message] else None
  else if String.eqb operation "push" then Some ["push"]
  else if String.eqb operation "pull" then Some ["pull"]
  else if String.eqb operation "status" then Some ["status"]
  else if String.eqb operation "branch" then
    if truthy branch then Some ["branch"; text_of branch] else Some ["branch"]
  else if String.eqb operation "checkout" then
    if truthy branch then Some ["checkout"; text_of branch] else None
  else None.

(** What the adapter makes of the way the subprocess ended. *)
Definition git_report (operation : string) (answer : outcome CompletedProcess) : string :=
  match answer with
  | Return result =>
      if returncode result =? 0
      then "Git " +:+ operation +:+ " successful:" +:+ nl +:+ stdout result
      else "Git " +:+ operation +:+ " failed:" +:+ nl +:+ stderr result
  | Raise e => "Error executing Git " +:+ operation +:+ ": " +:+ exn_str e
  end.

(** The operation names the git adapter runs in a repository. *)
Definition git_operations : list string :=
  [ "init"; "add"; "commit"; "push"; "pull"; "status"; "branch"; "checkout" ].

(** ** Web research *)

(** The address [_search_web] asks for a query. *)
Definition search_url (query : string) : string :=
  "https://api.duckduckgo.com/?q=" +:+ query +:+ "&format=json&no_html=1&skip_disambig=1".

(** A search answer that [_search_documentation] keeps. *)
Definition kept_answer (search_result : string) : bool :=
  negb (String.eqb search_result "")
  && negb (Str.contains "No detailed results" search_result).

(** What [_search_documentation] makes of the answers to its searches. *)
Definition documentation_report (query : string) (answers : list string) : string :=
  match List.filter kept_answer answers with
  | [] => "No documentation found for: " +:+ query
  | results => Str.join (nl +:+ nl) results
  end.

(** The decoded answer has neither an abstract nor related topics. *)
Definition no_details (data : json) : bool :=
  match data with
  | JObj fields =>
      negb (Json.truth (default JNull (Json.field "Abstract" fields)))
      && negb (Json.truth (default JNull (Json.field "RelatedTopics" fields)))
  | _ => false
  end.

(** The headers [_scrape_url] sends. *)
Definition scrape_headers : list (string * string) :=
  [("User-Agent", "Mozilla/5.0 (Windows NT 10.0; Win64; x64) AppleWebKit/537.36")].

(** ** Code analysis *)

(** The names of the class definitions, of the function definitions and of
    the imported modules among the nodes, each in the order of the nodes. *)
Definition class_names (tree : list ast_node) : list string :=
  omap (fun node => match node with ClassDef name => Some name | _ => None end) tree.

Definition function_names (tree : list ast_node) : list string :=
  omap (fun node => match node with FunctionDef name => Some name | _ => None end) tree.

Definition import_names (tree : list ast_node) : list string :=
  tree ≫= fun node =>
    match node with
    | Import aliases => aliases
    | ImportFrom module => [default "" module]
    | _ => []
    end.

(** The operations of the analysis that are for Python only. *)
Definition python_analyses : list string := ["structure"; "complexity"; "lint"].

(** An interpreter for the examples: every text parses to one class with
    one method and one import, and the ratio is printed as [0.0]. *)
Definition plain_interp : Interp := {|
  ast_nodes := fun _ => Return [Import ["os"]; ClassDef "Team"; FunctionDef "run"; OtherNode];
  percent_1f := fun _ _ => Return "0.0"
|}.

(** A site that answers every request with a page of one word. *)
Definition one_page_host : Host := {|
  shutil_rmtree := shutil_rmtree quiet_host;
  shutil_copy2 := shutil_copy2 quiet_host;
  shutil_move := shutil_move quiet_host;
  subprocess_run := subprocess_run quiet_host;
  requests_get := fun _ _ =>
    Return {| status_code := 200; content := "<p>  hello  </p>";
              json_of := Return (JObj []) |};
  soup_get_text := fun _ => Return "  hello  ";
  json_repr := json_repr quiet_host;
  crew_new := crew_new quiet_host;
  crew_kickoff := crew_kickoff quiet_host
|}.

Definition online_desk : World := {|
  fs := fs desk; cwd := cwd desk; procs := []; requests := []; stdin := [];
  host := one_page_host
|}.

(** A machine on which the checkers are not installed: every subprocess
    ends with return code 1 and a complaint on the error output. *)
Definition bare_host : Host := {|
  shutil_rmtree := shutil_rmtree quiet_host;
  shutil_copy2 := shutil_copy2 quiet_host;
  shutil_move := shutil_move quiet_host;
  subprocess_run := fun _ _ t =>
    (Return {| returncode := 1; stdout := ""; stderr := "No module named flake8" |}, t);
  requests_get := requests_get quiet_host;
  soup_get_text := soup_get_text quiet_host;
  json_repr := json_repr quiet_host;
  crew_new := crew_new quiet_host;
  crew_kickoff := crew_kickoff quiet_host
|}.

Definition bare_desk : World := {|
  fs := fs desk; cwd := cwd desk; procs := []; requests := []; stdin := [];
  host := bare_host
|}.

(** The command of a checker on a file, as the adapter starts it. *)
Definition checker_command (operation file_path : string) : list string :=
  if String.eqb operation "lint" then ["python"; "-m"; "flake8"; Path_str (Path_of file_path)]
  else ["python"; "-m"; "mccabe"; "--min"; "5"; Path_str (Path_of file_path)].

(** ** The interpreter the setup accepts *)

(** Python 3.10, 3.11, 3.12 or 3.13, whatever the rest of the version. *)
Definition version_supported (v : version_info) : bool :=
  (major v =? 3) && (10 <=? minor v) && (minor v <=? 13).

(** The entries of the log of subprocesses for the downloads of the
    models, the last one first. *)
Definition pulls_logged (left : list string) (dir : list string)
  : list (list string * list string) :=
  rev ((fun model => (["ollama"; "pull"; model], dir)) <$> left).

(** * Properties *)

(** ** The adapters never raise *)

Lemma try_except_returns {A : Type} (body : M A) (handler : exn -> A) (w : World) :
  exists a w', try_except body (fun e => mret (handler e)) w = (Return a, w').
Proof.
  unfold try_except.
  destruct (body w) as [[a|e] w']; [exists a, w' | exists (handler e), w']; reflexivity.
Qed.

(** C1. Whatever the operation name and the arguments, and whatever the
    world does, a call of [_run] of the file, git and web adapters raises
    nothing: it returns a string. *)
Theorem adapters_never_raise :
  (forall operation path content destination w,
     exists s w', FileSystemTool._run operation path content destination w = (Return s, w'))
  /\ (forall operation path message branch remote_url w,
     exists s w', GitTool._run operation path message branch remote_url w = (Return s, w'))
  /\ (forall operation query url w,
     exists s w', WebResearchTool._run operation query url w = (Return s, w')).
Proof.
  repeat split; intros; apply try_except_returns.
Qed.

(** ** The git adapter: what is checked before git runs *)

Arguments exists_in : simpl never.
Arguments is_dir_in : simpl never.
Arguments resolved : simpl never.
Arguments Path_of : simpl never.
Arguments locate : simpl never.
Arguments stat : simpl never.
Arguments GitTool.git : simpl never.

Ltac unfold_M :=
  unfold try_except, Path_exists, Path_is_dir, Path_cwd, Path_resolve, ask,
    ask_outcome, lift, raise, mbind, mret, fmap, M_bind, M_ret, M_fmap in *.

Lemma git_run_missing_path operation path message branch remote_url w :
  String.eqb operation "clone" && truthy remote_url = false ->
  exists_in w (resolved w (Path_of path)) = false ->
  GitTool._run operation path message branch remote_url w
  = (Return ("Path does not exist: " +:+ path), w).
Proof.
  intros Hclone Hmissing.
  unfold GitTool._run. unfold_M.
  rewrite Hclone, Hmissing. reflexivity.
Qed.

Lemma git_run_needs_message path message branch remote_url w :
  truthy message = false ->
  exists_in w (resolved w (Path_of path)) = true ->
  GitTool._run "commit" path message branch remote_url w
  = (Return "Commit message is required", w).
Proof.
  intros Hmessage Hfound.
  unfold GitTool._run. unfold_M.
  simpl. rewrite Hfound. simpl. rewrite Hmessage. reflexivity.
Qed.

Lemma git_run_needs_branch path message branch remote_url w :
  truthy branch = false ->
  exists_in w (resolved w (Path_of path)) = true ->
  GitTool._run "checkout" path message branch remote_url w
  = (Return "Branch name is required for checkout", w).
Proof.
  intros Hbranch Hfound.
  unfold GitTool._run. unfold_M.
  simpl. rewrite Hfound. simpl. rewrite Hbranch. reflexivity.
Qed.

(** C5. A commit on a repository path that exists, with no message, returns
    the text that says a message is required, and leaves the world as it
    was: the log of subprocesses has grown by nothing. *)
Theorem commit_without_message path branch remote_url w :
  exists_in w (resolved w (Path_of path)) = true ->
  GitTool._run "commit" path None branch remote_url w
  = (Return "Commit message is required", w)
  /\ procs (GitTool._run "commit" path None branch remote_url w).2 = procs w.
Proof.
  intros Hfound.
  rewrite (git_run_needs_message path None branch remote_url w eq_refl Hfound).
  split; reflexivity.
Qed.

Lemma commit_without_message_witness :
  exists_in desk (resolved desk (Path_of "repo")) = true
  /\ GitTool._run "commit" "repo" None None None desk
     = (Return "Commit message is required", desk).
Proof.
  split; [vm_compute; reflexivity|].
  apply (commit_without_message "repo" None None desk). vm_compute; reflexivity.
Defined.



(** ** The file adapter: paths that are not there *)



(** ** Calls that lack an argument *)




(** ** The file adapter: writing, then reading *)

Arguments Path_mkdir : simpl never.
Arguments Path_write_text : simpl never.
Arguments Path_read_text : simpl never.

Lemma newlines_out_id s : newlines_out s = s.
Proof.
  induction s as [|c s IH]; simpl; [reflexivity|].
  destruct (Ascii.eqb c LF) eqn:Hc.
  - apply Ascii.eqb_eq in Hc. subst c. rewrite IH. reflexivity.
  - rewrite IH. reflexivity.
Qed.

Lemma newlines_in_id s : no_carriage_return s = true -> newlines_in s = s.
Proof.
  unfold no_carriage_return.
  induction s as [|c s IH]; simpl; [reflexivity|].
  intros [Hc Hs]%andb_prop. apply negb_true_iff in Hc.
  rewrite Hc, (IH Hs). reflexivity.
Qed.

Lemma node_at_insert_file t k d cur :
  node_at t k <> Some Dir ->
  node_at t cur = Some Dir ->
  node_at (<[k := File d]> t) cur = Some Dir.
Proof.
  intros Hk Hcur. destruct cur as [|c cur]; [reflexivity|].
  simpl in *. rewrite lookup_insert_ne; [assumption|].
  intros ->. simpl in Hk. congruence.
Qed.

(** Putting a file where no directory was leaves every walk as it was. *)
Lemma walk_insert_file p t k d names : forall cur r,
  node_at t k <> Some Dir ->
  walk p t cur names = Return r ->
  walk p (<[k := File d]> t) cur names = Return r.
Proof.
  induction names as [|c rest IH]; intros cur r Hk Hwalk; simpl in *; [assumption|].
  destruct (node_at t cur) as [[data|]|] eqn:Hcur; try discriminate.
  rewrite (node_at_insert_file t k d cur Hk Hcur).
  apply IH; assumption.
Qed.

Lemma write_text_inv p data w w1 :
  Path_write_text p data w = (Return (), w1) ->
  exists k,
    locate w p = Return k
    /\ node_at (fs w) k <> Some Dir
    /\ w1 = with_fs w (<[k := File (newlines_out data)]> (fs w)).
Proof.
  unfold Path_write_text, on_fs.
  destruct (locate w p) as [k|e] eqn:Hk; [|discriminate].
  destruct (node_at (fs w) k) as [[d|]|] eqn:Hn; try discriminate;
    intros [= <-]; exists k; repeat split; congruence.
Qed.

(** What a successful [write_text] leaves behind is found by [stat]. *)
Lemma stat_after_write p data w w1 :
  Path_write_text p data w = (Return (), w1) ->
  locate w1 p = locate w p
  /\ stat w1 p = Return (File (newlines_out data)).
Proof.
  intros (k & Hk & Hn & ->)%write_text_inv.
  assert (locate (with_fs w (<[k := File (newlines_out data)]> (fs w))) p = Return k) as Hk'.
  { revert Hk. unfold locate. simpl.
    destruct (existsb has_nul (parts p)); [discriminate|].
    apply walk_insert_file. exact Hn. }
  split; [congruence|].
  unfold stat. rewrite Hk'. simpl.
  destruct k as [|c k]; [simpl in Hn; congruence|].
  simpl. rewrite lookup_insert_eq. reflexivity.
Qed.

Lemma read_after_write p data w w1 :
  Path_write_text p data w = (Return (), w1) ->
  exists_in w1 p = true
  /\ Path_read_text p w1 = (Return (newlines_in data), w1).
Proof.
  intros Hwrite.
  destruct (stat_after_write p data w w1 Hwrite) as [Hloc Hstat].
  unfold exists_in. rewrite Hstat. split; [reflexivity|].
  unfold Path_read_text, ask_outcome.
  unfold stat in Hstat.
  destruct (locate w1 p) as [k|e]; simpl in *; [|discriminate].
  destruct (node_at (fs w1) k) as [[d|]|]; try discriminate.
  injection Hstat as ->. rewrite newlines_out_id. reflexivity.
Qed.

(** The call of [write_file] that answers with its success text has made
    the parent directories and written the text. *)
Lemma write_file_inv path content destination w w1 :
  FileSystemTool._run "write_file" path (Some content) destination w
  = (Return ("Content written to: " +:+ path), w1) ->
  exists w0,
    Path_mkdir (Path_parent (Path_of path)) w = (Return (), w0)
    /\ Path_write_text (Path_of path) content w0 = (Return (), w1).
Proof.
  unfold FileSystemTool._run. unfold_M. simpl.
  destruct (Path_mkdir (Path_parent (Path_of path)) w) as [[[]|e] w0]; [|discriminate].
  destruct (Path_write_text (Path_of path) content w0) as [[[]|e] w1'] eqn:Hw;
    [|discriminate].
  intros [= <-]. exists w0. split; [reflexivity | exact Hw].
Qed.

Lemma read_file_found path content destination w data :
  exists_in w (Path_of path) = true ->
  Path_read_text (Path_of path) w = (Return data, w) ->
  FileSystemTool._run "read_file" path content destination w = (Return data, w).
Proof.
  intros Hfound Hread.
  unfold FileSystemTool._run. unfold_M. simpl.
  rewrite Hfound. simpl.
  unfold Path_read_text, ask_outcome in Hread. injection Hread as Hread.
  rewrite Hread. reflexivity.
Qed.

Lemma written_text_is_read path content destination content' destination' w w1 :
  FileSystemTool._run "write_file" path (Some content) destination w
  = (Return ("Content written to: " +:+ path), w1) ->
  FileSystemTool._run "read_file" path content' destination' w1
  = (Return (newlines_in content), w1).
Proof.
  intros (w0 & _ & Hwrite)%write_file_inv.
  destruct (read_after_write _ _ _ _ Hwrite) as [Hfound Hread].
  apply read_file_found; assumption.
Qed.

(** X3. What is read back after a successful write, whatever the text: the text
    as a file opened for reading hands it over, with a line feed for every
    carriage return and for every carriage return with its line feed. *)
Theorem write_then_read path content destination content' destination' w w1 :
  FileSystemTool._run "write_file" path (Some content) destination w
  = (Return ("Content written to: " +:+ path), w1) ->
  FileSystemTool._run "read_file" path content' destination' w1
  = (Return (newlines_in content), w1).
Proof. apply written_text_is_read. Qed.

Lemma write_then_read_witness :
  let content := "a" +:+ String CR (String LF "b") in
  let w1 := (FileSystemTool._run "write_file" "a.txt" (Some content) None desk).2 in
  FileSystemTool._run "read_file" "a.txt" None None w1
  = (Return ("a" +:+ String LF "b"), w1).
Proof.
  apply (write_then_read "a.txt" ("a" +:+ String CR (String LF "b")) None None None desk).
  vm_compute; reflexivity.
Defined.

(** C6, as stated, fails: a carriage return that was written is read back
    as a line feed. *)
Lemma carriage_return_is_not_read_back :
  let content := "a" +:+ String CR "b" in
  let written := FileSystemTool._run "write_file" "a.txt" (Some content) None desk in
  written.1 = Return "Content written to: a.txt"
  /\ (FileSystemTool._run "read_file" "a.txt" None None written.2).1
     = Return ("a" +:+ String LF "b")
  /\ "a" +:+ String LF "b" <> content.
Proof.
  vm_compute. split; [reflexivity | split; [reflexivity | discriminate]].
Qed.

(** C6, amended. For every path and every text without carriage return, a
    [write_file] that succeeds, followed by [read_file] on the same path,
    returns exactly the text written. *)
Theorem write_read_round_trip path content destination content' destination' w w1 :
  no_carriage_return content = true ->
  FileSystemTool._run "write_file" path (Some content) destination w
  = (Return ("Content written to: " +:+ path), w1) ->
  FileSystemTool._run "read_file" path content' destination' w1
  = (Return content, w1).
Proof.
  intros Hcr Hwrite.
  rewrite (written_text_is_read _ _ _ content' destination' _ _ Hwrite).
  rewrite (newlines_in_id _ Hcr). reflexivity.
Qed.

Lemma write_read_round_trip_witness :
  let w1 := (FileSystemTool._run "write_file" "docs/plan.md" (Some "step one") None desk).2 in
  FileSystemTool._run "read_file" "docs/plan.md" None None w1 = (Return "step one", w1).
Proof.
  apply (write_read_round_trip "docs/plan.md" "step one" None None None desk).
  - vm_compute; reflexivity.
  - vm_compute; reflexivity.
Defined.

(** ** parse_selection *)

Lemma parse_item_entry available_list selected item :
  parse_item available_list selected item
  = l ← entry available_list item; Return (selected ++ l).
Proof.
  unfold entry, parse_item.
  destruct (Str.isdigit (Str.strip item)).
  - destruct (Str.int (Str.strip item)) as [n|e]; simpl; [|reflexivity].
    destruct ((0 <=? n - 1) && (n - 1 <? Z.of_nat (length available_list))).
    + destruct (py_index available_list (n - 1)); reflexivity.
    + simpl. rewrite app_nil_r. reflexivity.
  - destruct (py_in (Str.strip item) available_list); simpl;
      [reflexivity | rewrite app_nil_r; reflexivity].
Qed.

(** The loop adds, item after item, what each item selects. *)
Lemma for_each_entries available_list items : forall selected,
  for_each (parse_item available_list) selected items
  = ls ← mapM (entry available_list) items; Return (selected ++ concat ls).
Proof.
  induction items as [|item items IH]; intros selected; simpl.
  - rewrite app_nil_r. reflexivity.
  - rewrite parse_item_entry.
    destruct (entry available_list item) as [l|e]; simpl; [|reflexivity].
    rewrite IH.
    destruct (mapM (entry available_list) items) as [ls|e]; simpl; [|reflexivity].
    rewrite app_assoc. reflexivity.
Qed.

Lemma parse_selection_entries selection available_list :
  parse_selection selection available_list
  = ls ← mapM (entry available_list) (Str.split "," selection); Return (concat ls).
Proof. unfold parse_selection. rewrite for_each_entries. reflexivity. Qed.

Lemma split_not_nil sep s : Str.split sep s <> [].
Proof.
  destruct s as [|c s]; simpl; [discriminate|].
  destruct (Ascii.eqb c sep); [discriminate|].
  destruct (Str.split sep s); discriminate.
Qed.

Lemma split_app sep a b :
  Str.split sep (a +:+ String sep b) = Str.split sep a ++ Str.split sep b.
Proof.
  induction a as [|c a IH]; simpl.
  - rewrite Ascii.eqb_refl. reflexivity.
  - destruct (Ascii.eqb c sep); [rewrite IH; reflexivity|].
    rewrite IH.
    pose proof (split_not_nil sep a) as Hne.
    destruct (Str.split sep a); [congruence | reflexivity].
Qed.

Lemma mapM_app {A B : Type} (f : A -> outcome B) l1 l2 :
  mapM f (l1 ++ l2) = x ← mapM f l1; y ← mapM f l2; Return (x ++ y).
Proof.
  induction l1 as [|a l1 IH]; simpl.
  - destruct (mapM f l2); reflexivity.
  - destruct (f a) as [b|e]; simpl; [|reflexivity].
    rewrite IH.
    destruct (mapM f l1) as [x|e]; simpl; [|reflexivity].
    destruct (mapM f l2); reflexivity.
Qed.

(** A selection made of two selections joined by a comma selects what the
    first selects, then what the second selects. *)
Lemma parse_selection_comma a b available_list la lb :
  parse_selection a available_list = Return la ->
  parse_selection b available_list = Return lb ->
  parse_selection (a +:+ "," +:+ b) available_list = Return (la ++ lb).
Proof.
  rewrite !parse_selection_entries.
  change ("," +:+ b) with (String "," b).
  rewrite split_app, mapM_app.
  destruct (mapM (entry available_list) (Str.split "," a)) as [x|e]; simpl; [|discriminate].
  destruct (mapM (entry available_list) (Str.split "," b)) as [y|e]; simpl; [|discriminate].
  intros [= <-] [= <-]. rewrite concat_app. reflexivity.
Qed.

(** *** Decimal numerals *)

Lemma pretty_N_char_decimal d :
  (d < 10)%N ->
  Str.isdecimal (pretty_N_char d) = true
  /\ Str.code (pretty_N_char d) - 48 = Z.of_N d
  /\ Ascii.eqb (pretty_N_char d) "_" = false.
Proof.
  intros Hd.
  assert (d = 0 \/ d = 1 \/ d = 2 \/ d = 3 \/ d = 4 \/ d = 5 \/ d = 6
          \/ d = 7 \/ d = 8 \/ d = 9)%N as Hcases by lia.
  repeat (destruct Hcases as [-> | Hcases]; [vm_compute; repeat split |]).
  subst d. vm_compute; repeat split.
Qed.

Lemma pretty_N_go_decimal x : forall s,
  Str.forallb Str.isdecimal (pretty_N_go x s) = Str.forallb Str.isdecimal s.
Proof.
  induction (N.lt_wf_0 x) as [x _ IH]; intros s.
  destruct (decide (x = 0%N)) as [-> | Hx]; [reflexivity|].
  rewrite pretty_N_go_step by lia.
  rewrite IH by (apply N.div_lt; lia). simpl.
  destruct (pretty_N_char_decimal (x `mod` 10)) as (-> & _ & _);
    [apply N.mod_lt; lia | reflexivity].
Qed.

Lemma int_literal_pretty_N_go x : forall s after_digit,
  Str.int_literal after_digit 0 (pretty_N_go x s)
  = if (x =? 0)%N then Str.int_literal after_digit 0 s
    else Str.int_literal true (Z.of_N x) s.
Proof.
  induction (N.lt_wf_0 x) as [x _ IH]; intros s after_digit.
  destruct (N.eqb_spec x 0) as [-> | Hx]; [reflexivity|].
  rewrite pretty_N_go_step by lia.
  rewrite IH by (apply N.div_lt; lia).
  destruct (pretty_N_char_decimal (x `mod` 10)) as (Hdec & Hval & Hund);
    [apply N.mod_lt; lia|].
  assert (Z.of_N x = 10 * Z.of_N (x `div` 10) + Z.of_N (x `mod` 10)) as Hx10.
  { rewrite (N.div_mod x 10) at 1 by lia. lia. }
  destruct (N.eqb_spec (x `div` 10) 0) as [Hq | Hq]; simpl;
    rewrite Hund, Hdec, Hval, Hx10; [rewrite Hq|]; reflexivity.
Qed.

(** The numeral of a natural number is a non-empty row of decimal digits,
    and [int] reads the number back from its digits. *)
Lemma numeral_digits k :
  0 <= k ->
  Str.of_Z k <> ""
  /\ Str.forallb Str.isdecimal (Str.of_Z k) = true
  /\ Str.int_literal false 0 (Str.of_Z k) = Some k.
Proof.
  intros Hk. unfold Str.of_Z, pretty, pretty_Z.
  destruct k as [|p|p]; [repeat split; discriminate | | lia].
  unfold pretty, pretty_positive, pretty, pretty_N.
  destruct (decide (N.pos p = 0%N)); [discriminate|].
  pose proof (int_literal_pretty_N_go (N.pos p) "" false) as Hint.
  simpl in Hint.
  split; [|split].
  - intros Hempty. rewrite Hempty in Hint. discriminate.
  - rewrite pretty_N_go_decimal. reflexivity.
  - exact Hint.
Qed.

Lemma decimal_not_space c : Str.isdecimal c = true -> Str.isspace c = false.
Proof.
  unfold Str.isdecimal, Str.isspace. intros H. lia.
Qed.

Lemma rstrip_decimal s : Str.forallb Str.isdecimal s = true -> Str.rstrip s = s.
Proof.
  induction s as [|c s IH]; simpl; [reflexivity|].
  intros [Hc Hs]%andb_prop. rewrite (IH Hs).
  destruct s; [rewrite (decimal_not_space c Hc)|]; reflexivity.
Qed.

Lemma strip_decimal s : Str.forallb Str.isdecimal s = true -> Str.strip s = s.
Proof.
  intros Hs. unfold Str.strip.
  assert (Str.lstrip s = s) as ->; [|apply rstrip_decimal, Hs].
  destruct s as [|c s]; simpl in *; [reflexivity|].
  apply andb_prop in Hs as [Hc _]. rewrite (decimal_not_space c Hc). reflexivity.
Qed.

Lemma forallb_isdigit_decimal s :
  Str.forallb Str.isdecimal s = true -> Str.forallb Str.isdigit_char s = true.
Proof.
  induction s as [|c s IH]; simpl; [reflexivity|].
  intros [Hc Hs]%andb_prop. rewrite (IH Hs).
  assert (Str.isdigit_char c = true) as ->; [|reflexivity].
  unfold Str.isdigit_char. rewrite Hc. reflexivity.
Qed.

Lemma isdigit_decimal s :
  s <> "" -> Str.forallb Str.isdecimal s = true -> Str.isdigit s = true.
Proof.
  intros Hne Hs. destruct s as [|c s]; [congruence|].
  apply (forallb_isdigit_decimal _ Hs).
Qed.

Lemma int_decimal s v :
  Str.forallb Str.isdecimal s = true ->
  Str.int_literal false 0 s = Some v ->
  Str.int s = Return v.
Proof.
  intros Hs Hv. unfold Str.int. rewrite (strip_decimal s Hs).
  destruct s as [|c s]; [simpl in Hv; discriminate|].
  assert (Ascii.eqb c "-" = false /\ Ascii.eqb c "+" = false) as [Hm Hp].
  { simpl in Hs. apply andb_prop in Hs as [Hc _].
    split; apply Ascii.eqb_neq; intros ->; vm_compute in Hc; discriminate. }
  apply Ascii.eqb_neq in Hm, Hp.
  assert (match String c s with
          | String "-" r => (true, r)
          | String "+" r => (false, r)
          | _ => (false, String c s)
          end = (false, String c s)) as ->.
  { destruct c as [[] [] [] [] [] [] [] []]; try reflexivity; congruence. }
  rewrite Hv. reflexivity.
Qed.

(** What the numeral of [k] selects: the item at place [k], counted from
    one, when there is one, and nothing otherwise. *)
Lemma entry_numeral available_list k :
  0 <= k ->
  entry available_list (Str.of_Z k)
  = Return (if (1 <=? k) && (k <=? Z.of_nat (length available_list))
            then option_list (available_list !! Z.to_nat (k - 1)) else []).
Proof.
  intros Hk. destruct (numeral_digits k Hk) as (Hne & Hdec & Hint).
  unfold entry, parse_item.
  rewrite (strip_decimal _ Hdec), (isdigit_decimal _ Hne Hdec),
    (int_decimal _ _ Hdec Hint).
  unfold mbind at 1, outcome_bind at 1. cbv beta iota zeta.
  match goal with |- (if ?c then _ else _) = _ => destruct c eqn:Hin end.
  - assert ((1 <=? k) && (k <=? Z.of_nat (length available_list)) = true) as -> by lia.
    unfold py_index.
    assert ((k - 1 <? 0) = false) as -> by lia.
    cbv zeta. rewrite Hin.
    destruct (available_list !! Z.to_nat (k - 1)) as [x|] eqn:Hx; [reflexivity|].
    apply lookup_ge_None in Hx. lia.
  - assert ((1 <=? k) && (k <=? Z.of_nat (length available_list)) = false) as -> by lia.
    reflexivity.
Qed.

Lemma parse_selection_numeral available_list k :
  0 <= k ->
  parse_selection (Str.of_Z k) available_list
  = Return (if (1 <=? k) && (k <=? Z.of_nat (length available_list))
            then option_list (available_list !! Z.to_nat (k - 1)) else []).
Proof.
  intros Hk. rewrite parse_selection_entries.
  destruct (numeral_digits k Hk) as (_ & Hdec & _).
  assert (Str.split "," (Str.of_Z k) = [Str.of_Z k]) as ->.
  { revert Hdec. generalize (Str.of_Z k). intros s.
    induction s as [|c s IH]; simpl; [reflexivity|].
    intros [Hc Hs]%andb_prop. rewrite (IH Hs).
    destruct (Ascii.eqb_spec c ",") as [-> |]; [vm_compute in Hc; discriminate | reflexivity]. }
  simpl. rewrite (entry_numeral _ _ Hk). simpl. rewrite app_nil_r. reflexivity.
Qed.



(** The selection of the specification: the first agent, then [tech_lead];
    [bad] is dropped. *)
Example select_1_bad_tech_lead :
  parse_selection "1,bad,tech_lead" available_agents
  = Return ["senior_developer"; "tech_lead"].
Proof. vm_compute. reflexivity. Qed.

(** C2, where the code fails it. The superscript two is a digit for
    [isdigit], no key of the registry and no numeral for [int]: on the
    selection made of [1], a comma and that character the loop raises
    [ValueError], where the claim has the item dropped and
    [senior_developer] kept. *)
Lemma superscript_digit_raises :
  Str.isdigit superscript_two = true
  /\ py_in superscript_two available_agents = false
  /\ parse_selection ("1," +:+ superscript_two) available_agents
     = Raise (Exn ValueError
                ("invalid literal for int() with base 10: " +:+ Str.repr superscript_two)).
Proof. vm_compute. repeat split. Qed.

(** ** The order of the selected steps *)

Lemma dict_item_found {V : Type} (d : gmap string V) key v :
  d !! key = Some v -> AiDevTeamCrew.dict_item d key = Return v.
Proof. unfold AiDevTeamCrew.dict_item. intros ->. reflexivity. Qed.

Lemma pick_filter {V : Type} (d : gmap string V) names :
  AiDevTeamCrew.pick d names = Return (omap (fun name => d !! name) names).
Proof.
  unfold AiDevTeamCrew.pick.
  induction names as [|name names IH]; simpl; [reflexivity|].
  destruct (d !! name) as [v|] eqn:Hname; simpl.
  - rewrite (dict_item_found d name v Hname). simpl.
    rewrite IH. reflexivity.
  - exact IH.
Qed.

Lemma entry_in_registry available_list item l :
  entry available_list item = Return l -> Forall (fun x => x ∈ available_list) l.
Proof.
  unfold entry, parse_item.
  destruct (Str.isdigit (Str.strip item)).
  - destruct (Str.int (Str.strip item)) as [n|e]; simpl; [|discriminate].
    destruct ((0 <=? n - 1) && (n - 1 <? Z.of_nat (length available_list)));
      [|intros [= <-]; constructor].
    unfold py_index.
    destruct ((0 <=? _) && (_ <? _)); [|discriminate].
    destruct (available_list !! _) as [x|] eqn:Hx; simpl; [|discriminate].
    intros [= <-]. repeat constructor. eapply list_elem_of_lookup_2, Hx.
  - unfold py_in. case_bool_decide; intros [= <-]; repeat constructor. assumption.
Qed.

Lemma parse_selection_in_registry selection available_list names :
  parse_selection selection available_list = Return names ->
  Forall (fun x => x ∈ available_list) names.
Proof.
  rewrite parse_selection_entries.
  generalize (Str.split "," selection). intros items. revert names.
  induction items as [|item items IH]; simpl; intros names.
  - intros [= <-]. constructor.
  - destruct (entry available_list item) as [l|e] eqn:Hl; simpl; [|discriminate].
    destruct (mapM (entry available_list) items) as [ls|e]; simpl in *; [|discriminate].
    intros [= <-]. apply Forall_app. split.
    + eapply entry_in_registry, Hl.
    + apply IH. reflexivity.
Qed.

(** Every name of the task registry of [main.py] is a key of [task_map],
    and leads to the task of that name. *)
Lemma task_map_registry name :
  name ∈ available_tasks ->
  exists t, AiDevTeamCrew.task_map !! name = Some t /\ task_config t = name.
Proof.
  intros Hin.
  assert (forallb (fun name =>
            match AiDevTeamCrew.task_map !! name with
            | Some t => String.eqb (task_config t) name
            | None => false
            end) available_tasks = true) as Hall by (vm_compute; reflexivity).
  rewrite forallb_forall in Hall.
  specialize (Hall name). rewrite <- list_elem_of_In in Hall. specialize (Hall Hin).
  destruct (AiDevTeamCrew.task_map !! name) as [t|]; [|discriminate].
  exists t. split; [reflexivity | apply String.eqb_eq, Hall].
Qed.

Lemma pick_registry_names names :
  Forall (fun x => x ∈ available_tasks) names ->
  task_config <$> omap (fun name => AiDevTeamCrew.task_map !! name) names = names.
Proof.
  induction 1 as [|name names Hname _ IH]; simpl; [reflexivity|].
  destruct (task_map_registry name Hname) as (t & -> & Ht). simpl.
  f_equal; [exact Ht | exact IH].
Qed.




(** ** Exit codes *)

Ltac unfold_script :=
  unfold try_script, run, sys_exit, new_crew, kickoff, input, on_fs, ask_outcome,
    lift, mbind, mret, fmap, Script_bind, Script_ret, M_fmap in *.

Arguments mkdir_exist_ok : simpl never.
Arguments Str.strip : simpl never.
Arguments Str.join : simpl never.
Arguments parse_selection : simpl never.

Lemma script_bind_run {A B : Type} (m : M A) (k : A -> Script B) w :
  (run m ≫= k) w
  = match m w with
    | (Return a, w') => k a w'
    | (Raise e, w') => (Crashed e, w')
    end.
Proof. unfold mbind, Script_bind, run. destruct (m w) as [[a|e] w']; reflexivity. Qed.

Lemma script_bind_ret {A B : Type} (a : A) (k : A -> Script B) w :
  (mret a ≫= k) w = k a w.
Proof. reflexivity. Qed.

Lemma input_eq w :
  input w = match stdin w with
            | line :: rest => (Return line, with_stdin w rest)
            | [] => (Raise (Exn EOFError "EOF when reading a line"), w)
            end.
Proof. reflexivity. Qed.

(** The crew step of both workflows: 0 when nothing raises, else 1. *)
Lemma crew_step_exit (c : Crew) (d : string) (w : World) :
  let r := try_script
             (run new_crew;; result ← run (kickoff c d); mret result)
             (fun _ => sys_exit 1) w in
  (exit_code r.1 = 1 <-> crew_fails c d w) /\ (exit_code r.1 = 0 \/ exit_code r.1 = 1).
Proof.
  unfold crew_fails. unfold_script.
  destruct (crew_new (host w)) as [[]|e] eqn:Hnew; simpl.
  - destruct (crew_kickoff (host w) c d (fs w)) as [[result|e] t]; simpl.
    + split; [|left; reflexivity].
      split; [discriminate | intros [[e He] | [e He]]; discriminate].
    + split; [|right; reflexivity].
      split; [intros _; right; eexists; reflexivity | reflexivity].
  - split; [|right; reflexivity].
    split; [intros _; left; eexists; reflexivity | reflexivity].
Qed.

Lemma main_exit argv w :
  let r := (main argv w).1 in
  let w1 := description_read argv w in
  let w2 := (mkdir_exist_ok (Path_of "output") w1).2 in
  (exit_code r = 1 <->
     description_of argv w = None
     \/ exists d, description_of argv w = Some d
          /\ (blank d = true \/ output_dir_fails w1
              \/ crew_fails AiDevTeamCrew.crew d w2))
  /\ (exit_code r = 0 \/ exit_code r = 1).
Proof.
  unfold main, description_of, description_read, output_dir_fails, blank.
  assert (forall d w1,
    let r := ((if String.eqb (Str.strip d) "" then sys_exit 1
               else run (mkdir_exist_ok (Path_of "output"));;
                    try_script
                      (run new_crew;;
                       result ← run (kickoff AiDevTeamCrew.crew d); mret result)
                      (fun _ => sys_exit 1)) : Script string) w1 in
    (exit_code r.1 = 1 <->
       String.eqb (Str.strip d) "" = true
       \/ (exists e, (mkdir_exist_ok (Path_of "output") w1).1 = Raise e)
       \/ crew_fails AiDevTeamCrew.crew d (mkdir_exist_ok (Path_of "output") w1).2)
    /\ (exit_code r.1 = 0 \/ exit_code r.1 = 1)) as Hrest.
  { intros d w1.
    destruct (String.eqb (Str.strip d) "") eqn:Hblank.
    - simpl. split; [|right; reflexivity]. split; [left; reflexivity | reflexivity].
    - pose proof (crew_step_exit AiDevTeamCrew.crew d
                    (mkdir_exist_ok (Path_of "output") w1).2) as Hcrew.
      cbv zeta in *. rewrite script_bind_run.
      destruct (mkdir_exist_ok (Path_of "output") w1) as [[[]|e] w2]; simpl in *.
      + destruct Hcrew as [[H1 H2] H3]. split; [|exact H3].
        split.
        * intros H. right. right. apply H1, H.
        * intros [H | [[e He] | H]]; [discriminate | discriminate | apply H2, H].
      + split; [|right; reflexivity].
        split; [intros _; right; left; eexists; reflexivity | reflexivity]. }
  cbv zeta in *.
  destruct (1 <? Z.of_nat (length argv)).
  - specialize (Hrest (Str.join " " (tail argv)) w).
    rewrite script_bind_ret.
    destruct Hrest as [[H1 H2] H3]. split; [|exact H3].
    split.
    + intros H. right. eexists. split; [reflexivity | apply H1, H].
    + intros [H | (d & [= <-] & H)]; [discriminate | apply H2, H].
  - rewrite script_bind_run, input_eq.
    destruct (stdin w) as [|line rest] eqn:Hstdin; simpl head; simpl tail.
    + simpl. split; [|right; reflexivity]. split; [left; reflexivity | reflexivity].
    + specialize (Hrest line (with_stdin w rest)).
      destruct Hrest as [[H1 H2] H3]. split; [|exact H3].
      split.
      * intros H. right. eexists. split; [reflexivity | apply H1, H].
      * intros [H | (d & [= <-] & H)]; [discriminate | apply H2, H].
Qed.

Lemma script_bind_input {B : Type} (k : string -> Script B) w :
  (run (Str.strip <$> input) ≫= k) w
  = match stdin w with
    | line :: rest => k (Str.strip line) (with_stdin w rest)
    | [] => (Crashed (Exn EOFError "EOF when reading a line"), w)
    end.
Proof.
  rewrite script_bind_run. unfold fmap, M_fmap. rewrite input_eq.
  destruct (stdin w); reflexivity.
Qed.

Ltac step_input :=
  match goal with
  | |- context [ (run (Str.strip <$> input) ≫= ?k) ?w ] =>
      rewrite (script_bind_input k w)
  end.

Ltac step_run :=
  match goal with
  | |- context [ (run ?m ≫= ?k) ?w ] => rewrite (script_bind_run m k w)
  end.

Lemma create_custom_crew_returns agents_list tasks_list :
  AiDevTeamCrew.create_custom_crew agents_list tasks_list
  = Return (custom_crew agents_list tasks_list).
Proof. unfold AiDevTeamCrew.create_custom_crew. rewrite !pick_filter. reflexivity. Qed.

Lemma custom_crew_step_exit sa st (d : string) (w : World) :
  let r := try_script
             (run new_crew;;
              c ← run (lift (AiDevTeamCrew.create_custom_crew sa st));
              result ← run (kickoff c d); mret result)
             (fun _ => sys_exit 1) w in
  (exit_code r.1 = 1 <-> crew_fails (custom_crew sa st) d w)
  /\ (exit_code r.1 = 0 \/ exit_code r.1 = 1).
Proof.
  rewrite create_custom_crew_returns.
  apply (crew_step_exit (custom_crew sa st) d w).
Qed.

Lemma custom_exit_early w :
  (length (stdin w) < 3)%nat -> exit_code (run_custom_workflow w).1 = 1.
Proof.
  intros Hlen. unfold run_custom_workflow.
  rewrite script_bind_input.
  destruct (stdin w) as [|la [|lt [|ld rest]]] eqn:Hstdin; simpl in Hlen; try lia;
    reflexivity.
Qed.

Lemma custom_exit w la lt ld rest sa st :
  stdin w = la :: lt :: ld :: rest ->
  parse_selection (Str.strip la) available_agents = Return sa ->
  parse_selection (Str.strip lt) available_tasks = Return st ->
  let r := (run_custom_workflow w).1 in
  (exit_code r = 1 <->
     blank ld = true \/ sa = [] \/ st = []
     \/ crew_fails (custom_crew sa st) (Str.strip ld) (with_stdin w rest))
  /\ (exit_code r = 0 \/ exit_code r = 1).
Proof.
  intros Hstdin Hsa Hst. cbv zeta. unfold run_custom_workflow, blank.
  step_input. rewrite Hstdin. cbv beta.
  step_input. cbn [stdin with_stdin]. cbv beta.
  step_input. cbn [stdin with_stdin]. cbv beta.
  assert (Str.strip la = "" -> sa = []) as Hla.
  { intros Hempty. rewrite Hempty in Hsa. vm_compute in Hsa. congruence. }
  assert (Str.strip lt = "" -> st = []) as Hlt.
  { intros Hempty. rewrite Hempty in Hst. vm_compute in Hst. congruence. }
  destruct (String.eqb_spec (Str.strip la) "") as [Ha | Ha].
  { simpl. split; [|right; reflexivity].
    split; [intros _; right; left; apply Hla, Ha | reflexivity]. }
  destruct (String.eqb_spec (Str.strip lt) "") as [Ht | Ht].
  { simpl. split; [|right; reflexivity].
    split; [intros _; right; right; left; apply Hlt, Ht | reflexivity]. }
  destruct (String.eqb (Str.strip ld) "") eqn:Hd.
  { simpl. split; [|right; reflexivity]. split; [left; reflexivity | reflexivity]. }
  cbn [orb].
  step_run. unfold lift at 1. rewrite Hsa.
  step_run. unfold lift at 1. rewrite Hst.
  destruct sa as [|a sa].
  { simpl. split; [|right; reflexivity].
    split; [intros _; right; left; reflexivity | reflexivity]. }
  destruct st as [|t st].
  { simpl. split; [|right; reflexivity].
    split; [intros _; right; right; left; reflexivity | reflexivity]. }
  destruct (custom_crew_step_exit (a :: sa) (t :: st) (Str.strip ld)
              (with_stdin (with_stdin (with_stdin w (lt :: ld :: rest)) (ld :: rest)) rest))
    as [[H1 H2] H3].
  split; [|exact H3].
  split.
  - intros H. right. right. right. apply H1, H.
  - intros [H | [H | [H | H]]]; [discriminate.. | apply H2, H].
Qed.

Lemma script_main argv :
  (forall prog args, argv <> prog :: "--custom" :: args) -> script argv = main argv.
Proof.
  intros Hplain. destruct argv as [|prog [|flag args]]; try reflexivity.
  unfold script. destruct (String.eqb_spec flag "--custom") as [-> |]; [|reflexivity].
  exfalso. eapply Hplain. reflexivity.
Qed.

Lemma script_custom prog args :
  script (prog :: "--custom" :: args) = run_custom_workflow.
Proof. reflexivity. Qed.




(** ** Selections that are dropped softly *)

Lemma int_literal_decimal s : forall after_digit acc,
  Str.forallb Str.isdecimal s = true ->
  s <> "" \/ after_digit = true ->
  exists v, Str.int_literal after_digit acc s = Some v.
Proof.
  induction s as [|c s IH]; intros after_digit acc Hs Hne; simpl.
  - destruct Hne as [Hne | ->]; [congruence | eauto].
  - simpl in Hs. apply andb_prop in Hs as [Hc Hs].
    destruct (Ascii.eqb_spec c "_") as [-> |]; [vm_compute in Hc; discriminate|].
    rewrite Hc. apply IH; auto.
Qed.

Lemma py_index_in_range {A : Type} (l : list A) i :
  (0 <=? i) && (i <? Z.of_nat (length l)) = true ->
  exists x, py_index l i = Return x.
Proof.
  intros Hin. unfold py_index.
  assert ((i <? 0) = false) as -> by lia. cbv zeta. rewrite Hin.
  destruct (l !! Z.to_nat i) as [x|] eqn:Hx; [eauto|].
  apply lookup_ge_None in Hx. lia.
Qed.

Lemma entry_plain_returns available_list item :
  plain_item item = true -> exists l, entry available_list item = Return l.
Proof.
  unfold plain_item, entry, parse_item. cbv zeta.
  destruct (Str.isdigit (Str.strip item)) eqn:Hdigit; simpl.
  - intros Hdec.
    assert (Str.strip item <> "") as Hne.
    { intros Hempty. rewrite Hempty in Hdigit. discriminate. }
    destruct (int_literal_decimal _ false 0 Hdec (or_introl Hne)) as [v Hv].
    rewrite (int_decimal _ _ Hdec Hv). simpl.
    destruct ((0 <=? v - 1) && (v - 1 <? Z.of_nat (length available_list))) eqn:Hin;
      [|eauto].
    destruct (py_index_in_range available_list (v - 1) Hin) as [x ->]. simpl. eauto.
  - intros _. destruct (py_in (Str.strip item) available_list); eauto.
Qed.



(** ** Operation names that are not known *)

(** X2. The file adapter answers an operation name it does not know with that
    name, and changes nothing. *)
Theorem unknown_file_operation operation path content destination w :
  operation ∉ file_operations ->
  FileSystemTool._run operation path content destination w
  = (Return ("Unknown operation: " +:+ operation), w).
Proof.
  intros Hop. unfold file_operations in Hop.
  repeat (apply not_elem_of_cons in Hop as [?%String.eqb_neq Hop]).
  unfold FileSystemTool._run, try_except.
  repeat match goal with H : String.eqb operation _ = false |- _ => rewrite H; clear H end.
  reflexivity.
Qed.

Lemma unknown_file_operation_witness :
  FileSystemTool._run "rename_file" "notes.txt" None None desk
  = (Return "Unknown operation: rename_file", desk).
Proof.
  apply (unknown_file_operation "rename_file" "notes.txt" None None desk).
  vm_compute. intros H. repeat (apply elem_of_cons in H as [H | H]; [discriminate|]).
  inversion H.
Defined.

(** ** The file adapter: directories *)

Arguments os_mkdir : simpl never.
Arguments Path_touch : simpl never.
Arguments Path_unlink : simpl never.
Arguments Path_iterdir : simpl never.

Lemma with_fs_same w : with_fs w (fs w) = w.
Proof. destruct w; reflexivity. Qed.

Lemma node_at_insert_dir t k cur :
  node_at t cur = Some Dir -> node_at (<[k := Dir]> t) cur = Some Dir.
Proof.
  intros Hcur. destruct cur as [|c cur]; [reflexivity|]. simpl in *.
  destruct (decide (k = c :: cur)) as [-> | Hne].
  - apply lookup_insert_eq.
  - rewrite lookup_insert_ne; assumption.
Qed.

(** Making a directory leaves every walk as it was. *)
Lemma walk_insert_dir p t k names : forall cur r,
  walk p t cur names = Return r -> walk p (<[k := Dir]> t) cur names = Return r.
Proof.
  induction names as [|c rest IH]; intros cur r Hwalk; simpl in *; [assumption|].
  destruct (node_at t cur) as [[data|]|] eqn:Hcur; try discriminate.
  rewrite (node_at_insert_dir t k cur Hcur). apply IH, Hwalk.
Qed.

Lemma os_mkdir_inv p w w1 :
  os_mkdir p w = (Return (), w1) ->
  exists k, locate w p = Return k /\ node_at (fs w) k = None
            /\ w1 = with_fs w (<[k := Dir]> (fs w)).
Proof.
  unfold os_mkdir, on_fs.
  destruct (locate w p) as [k|e] eqn:Hk; [|discriminate].
  destruct (node_at (fs w) k) as [n|] eqn:Hn; [discriminate|].
  intros [= <-]. exists k. repeat split; assumption.
Qed.

Lemma os_mkdir_raises p w e w1 :
  os_mkdir p w = (Raise e, w1) -> w1 = with_fs w (fs w).
Proof.
  unfold os_mkdir, on_fs.
  destruct (locate w p) as [k|e']; [|intros [= _ <-]; reflexivity].
  destruct (node_at (fs w) k); [intros [= _ <-]; reflexivity | discriminate].
Qed.

Lemma is_dir_after_os_mkdir p w w1 :
  os_mkdir p w = (Return (), w1) -> is_dir_in w1 p = true.
Proof.
  intros (k & Hk & Hn & ->)%os_mkdir_inv.
  unfold is_dir_in, stat.
  assert (locate (with_fs w (<[k := Dir]> (fs w))) p = Return k) as ->.
  { revert Hk. unfold locate. simpl.
    destruct (existsb has_nul (parts p)); [discriminate|]. apply walk_insert_dir. }
  simpl. destruct k as [|c k]; [simpl in Hn; discriminate|].
  simpl. rewrite lookup_insert_eq. reflexivity.
Qed.

Lemma forgive_if_dir_inv p e w w1 :
  forgive_if_dir p e w = (Return (), w1) -> w1 = w /\ is_dir_in w p = true.
Proof.
  unfold forgive_if_dir. unfold_M.
  destruct (is_OSError e); [|discriminate].
  destruct (is_dir_in w p); [|discriminate].
  intros [= <-]. split; reflexivity.
Qed.

Lemma is_dir_after_mkdir_exist_ok p w w1 :
  mkdir_exist_ok p w = (Return (), w1) -> is_dir_in w1 p = true.
Proof.
  unfold mkdir_exist_ok, try_except.
  destruct (os_mkdir p w) as [[[]|e] w0] eqn:Hmk.
  - intros [= <-]. eapply is_dir_after_os_mkdir, Hmk.
  - destruct (is_FileNotFoundError e); [discriminate|].
    intros [-> Hdir]%forgive_if_dir_inv. exact Hdir.
Qed.

Lemma is_dir_after_mkdir_parents n : forall p w w1,
  mkdir_parents n p w = (Return (), w1) -> is_dir_in w1 p = true.
Proof.
  induction n as [|n IH]; intros p w w1; simpl; unfold try_except;
    destruct (os_mkdir p w) as [[[]|e] w0] eqn:Hmk;
    try (intros [= <-]; eapply is_dir_after_os_mkdir, Hmk).
  - destruct (is_FileNotFoundError e).
    + destruct (Path_eqb (Path_parent p) p); discriminate.
    + intros [-> Hdir]%forgive_if_dir_inv. exact Hdir.
  - destruct (is_FileNotFoundError e).
    + destruct (Path_eqb (Path_parent p) p); [discriminate|].
      unfold mbind, M_bind.
      destruct (mkdir_parents n (Path_parent p) w0) as [[[]|e'] w2]; [|discriminate].
      apply is_dir_after_mkdir_exist_ok.
    + intros [-> Hdir]%forgive_if_dir_inv. exact Hdir.
Qed.

(** On a directory that is there, [mkdir] with [exist_ok] does nothing. *)
Lemma mkdir_existing n p w :
  is_dir_in w p = true -> mkdir_parents n p w = (Return (), w).
Proof.
  intros Hdir.
  assert (os_mkdir p w = (Raise (EEXIST p), with_fs w (fs w))) as Hmk.
  { unfold os_mkdir, on_fs. revert Hdir. unfold is_dir_in, stat.
    destruct (locate w p) as [k|e]; simpl; [|discriminate].
    destruct (node_at (fs w) k); [reflexivity | discriminate]. }
  assert (forgive_if_dir p (EEXIST p) (with_fs w (fs w)) = (Return (), w)) as Hforgive.
  { rewrite with_fs_same. unfold forgive_if_dir. unfold_M. simpl.
    rewrite Hdir. reflexivity. }
  destruct n; simpl; unfold try_except; rewrite Hmk; simpl; exact Hforgive.
Qed.

(** X4. When [create_dir] answers with its success text, the path is a
    directory afterwards, and asking again succeeds again and changes
    nothing. *)
Theorem create_dir_makes_directory path content destination content' destination' w w1 :
  FileSystemTool._run "create_dir" path content destination w
  = (Return ("Directory created: " +:+ path), w1) ->
  is_dir_in w1 (Path_of path) = true
  /\ FileSystemTool._run "create_dir" path content' destination' w1
     = (Return ("Directory created: " +:+ path), w1).
Proof.
  intros Hrun.
  assert (is_dir_in w1 (Path_of path) = true) as Hdir.
  { revert Hrun. unfold FileSystemTool._run. unfold_M. simpl.
    destruct (Path_mkdir (Path_of path) w) as [[[]|e] w0] eqn:Hmk; [|discriminate].
    intros [= <-]. eapply is_dir_after_mkdir_parents, Hmk. }
  split; [exact Hdir|].
  unfold FileSystemTool._run. unfold_M. simpl.
  unfold Path_mkdir. rewrite (mkdir_existing _ _ _ Hdir). reflexivity.
Qed.

Lemma create_dir_makes_directory_witness :
  let w1 := (FileSystemTool._run "create_dir" "build/logs" None None desk).2 in
  is_dir_in w1 (Path_of "build/logs") = true
  /\ FileSystemTool._run "create_dir" "build/logs" None None w1
     = (Return "Directory created: build/logs", w1).
Proof.
  apply (create_dir_makes_directory "build/logs" None None None None desk).
  vm_compute; reflexivity.
Defined.

(** ** The file adapter: deleting and touching files *)

Lemma stat_file_inv w p d :
  stat w p = Return (File d) ->
  exists k, locate w p = Return k /\ node_at (fs w) k = Some (File d).
Proof.
  unfold stat. destruct (locate w p) as [k|e]; simpl; [|discriminate].
  destruct (node_at (fs w) k) as [n|] eqn:Hn; [|discriminate].
  intros [= ->]. exists k. split; [reflexivity | exact Hn].
Qed.

Lemma node_at_delete_file t k d cur :
  node_at t k = Some (File d) ->
  node_at t cur = Some Dir ->
  node_at (delete k t) cur = Some Dir.
Proof.
  intros Hk Hcur. destruct cur as [|c cur]; [reflexivity|]. simpl in *.
  rewrite lookup_delete_ne; [assumption|].
  intros ->. simpl in Hk. congruence.
Qed.

(** Taking a file away leaves every walk as it was. *)
Lemma walk_delete_file p t k d names : forall cur r,
  node_at t k = Some (File d) ->
  walk p t cur names = Return r ->
  walk p (delete k t) cur names = Return r.
Proof.
  induction names as [|c rest IH]; intros cur r Hk Hwalk; simpl in *; [assumption|].
  destruct (node_at t cur) as [[data|]|] eqn:Hcur; try discriminate.
  rewrite (node_at_delete_file t k d cur Hk Hcur). apply IH; assumption.
Qed.

Lemma unlink_file p w :
  is_file_in w p = true ->
  exists k d,
    locate w p = Return k /\ node_at (fs w) k = Some (File d)
    /\ Path_unlink p w = (Return (), with_fs w (delete k (fs w)))
    /\ exists_in (with_fs w (delete k (fs w))) p = false.
Proof.
  unfold is_file_in. intros Hfile.
  destruct (stat w p) as [[d|]|e] eqn:Hstat; try discriminate.
  destruct (stat_file_inv _ _ _ Hstat) as (k & Hk & Hn).
  exists k, d. split; [exact Hk | split; [exact Hn | split]].
  - unfold Path_unlink, on_fs. rewrite Hk, Hn. reflexivity.
  - unfold exists_in, stat.
    assert (locate (with_fs w (delete k (fs w))) p = Return k) as ->.
    { revert Hk. unfold locate. simpl.
      destruct (existsb has_nul (parts p)); [discriminate|].
      apply (walk_delete_file _ _ _ d), Hn. }
    simpl. destruct k as [|c k]; [simpl in Hn; discriminate|].
    simpl. rewrite lookup_delete_eq. reflexivity.
Qed.

Lemma exists_of_file w p : is_file_in w p = true -> exists_in w p = true.
Proof. unfold is_file_in, exists_in. destruct (stat w p) as [[|]|]; congruence. Qed.

(** X5. Deleting a regular file answers with the success text; afterwards
    the path does not exist, and reading it is answered with the text for
    a file that was not found. *)
Theorem delete_file_removes path content destination content' destination' w :
  is_file_in w (Path_of path) = true ->
  exists w1,
    FileSystemTool._run "delete_file" path content destination w
    = (Return ("File deleted: " +:+ path), w1)
    /\ exists_in w1 (Path_of path) = false
    /\ FileSystemTool._run "read_file" path content' destination' w1
       = (Return ("File not found: " +:+ path), w1).
Proof.
  intros Hfile.
  destruct (unlink_file _ _ Hfile) as (k & d & _ & _ & Hunlink & Hgone).
  exists (with_fs w (delete k (fs w))). split; [|split; [exact Hgone|]].
  - unfold FileSystemTool._run. unfold_M. simpl.
    rewrite (exists_of_file _ _ Hfile), Hunlink. reflexivity.
  - unfold FileSystemTool._run. unfold_M. simpl. rewrite Hgone. reflexivity.
Qed.

Lemma delete_file_removes_witness :
  exists w1,
    FileSystemTool._run "delete_file" "notes.txt" None None desk
    = (Return "File deleted: notes.txt", w1)
    /\ exists_in w1 (Path_of "notes.txt") = false
    /\ FileSystemTool._run "read_file" "notes.txt" None None w1
       = (Return "File not found: notes.txt", w1).
Proof.
  apply (delete_file_removes "notes.txt" None None None None desk).
  vm_compute; reflexivity.
Defined.

Lemma walk_path_irrelevant p p' t names : forall cur r,
  walk p t cur names = Return r -> walk p' t cur names = Return r.
Proof.
  induction names as [|c rest IH]; intros cur r; simpl; [trivial|].
  destruct (node_at t cur) as [[data|]|]; try discriminate. apply IH.
Qed.

(** A walk that takes one name more has passed through a directory. *)
Lemma walk_snoc p t names c : forall cur r,
  walk p t cur (names ++ [c]) = Return r ->
  exists cur', walk p t cur names = Return cur' /\ node_at t cur' = Some Dir.
Proof.
  induction names as [|c' rest IH]; intros cur r; simpl.
  - destruct (node_at t cur) as [[data|]|] eqn:Hcur; try discriminate.
    intros _. exists cur. split; [reflexivity | exact Hcur].
  - destruct (node_at t cur) as [[data|]|]; try discriminate. apply IH.
Qed.

Lemma existsb_removelast {A : Type} (f : A -> bool) l :
  existsb f l = false -> existsb f (removelast l) = false.
Proof.
  induction l as [|a l IH]; simpl; [trivial|].
  intros [Ha Hl]%orb_false_elim. destruct l as [|b l]; [reflexivity|].
  change (existsb f (a :: removelast (b :: l)) = false). simpl existsb at 1.
  rewrite Ha. apply IH, Hl.
Qed.

(** The parent of a regular file is a directory, when the working directory
    is one. *)
Lemma parent_of_file_is_dir w p :
  node_at (fs w) (cwd w) = Some Dir ->
  is_file_in w p = true ->
  is_dir_in w (Path_parent p) = true.
Proof.
  intros Hcwd Hfile. unfold is_file_in in Hfile.
  destruct (stat w p) as [[d|]|e] eqn:Hstat; try discriminate.
  destruct (stat_file_inv _ _ _ Hstat) as (k & Hk & Hn).
  unfold locate in Hk.
  destruct (existsb has_nul (parts p)) eqn:Hnul; [discriminate|].
  unfold is_dir_in, stat, locate, Path_parent. simpl.
  rewrite (existsb_removelast _ _ Hnul).
  destruct (parts p) as [|c names] eqn:Hparts using rev_ind.
  - simpl in *. injection Hk as <-.
    destruct (anchored p); simpl in Hn; congruence.
  - clear IHnames. rewrite removelast_last.
    destruct (walk_snoc _ _ _ _ _ _ Hk) as (cur' & Hwalk & Hdir).
    rewrite (walk_path_irrelevant _ {| anchored := anchored p; parts := names |} _ _ _ _ Hwalk).
    simpl. destruct cur' as [|c' cur']; [reflexivity|].
    simpl in *. rewrite Hdir. reflexivity.
Qed.

(** X6. [create_file] on a path that is a regular file answers with the
    success text and leaves the file, and all else, as it was: the text in
    the file is not cut. *)
Theorem create_file_keeps_file path content destination w :
  node_at (fs w) (cwd w) = Some Dir ->
  is_file_in w (Path_of path) = true ->
  FileSystemTool._run "create_file" path content destination w
  = (Return ("File created: " +:+ path), w).
Proof.
  intros Hcwd Hfile.
  pose proof (parent_of_file_is_dir _ _ Hcwd Hfile) as Hparent.
  unfold FileSystemTool._run. unfold_M. simpl.
  unfold Path_mkdir. rewrite (mkdir_existing _ _ _ Hparent).
  unfold Path_touch, on_fs.
  unfold is_file_in in Hfile.
  destruct (stat w (Path_of path)) as [[d|]|e]; try discriminate.
  rewrite with_fs_same. reflexivity.
Qed.

Lemma create_file_keeps_file_witness :
  FileSystemTool._run "create_file" "notes.txt" None None desk
  = (Return "File created: notes.txt", desk)
  /\ FileSystemTool._run "read_file" "notes.txt" None None desk
     = (Return "to do", desk).
Proof.
  split.
  - apply (create_file_keeps_file "notes.txt" None None desk); vm_compute; reflexivity.
  - vm_compute; reflexivity.
Defined.

(** ** The file adapter: what is asked of a path that does not fit *)



Lemma stat_dir_inv w p :
  is_dir_in w p = true ->
  exists k, locate w p = Return k /\ node_at (fs w) k = Some Dir.
Proof.
  unfold is_dir_in, stat. destruct (locate w p) as [k|e]; simpl; [|discriminate].
  destruct (node_at (fs w) k) as [[d|]|] eqn:Hn; try discriminate.
  intros _. exists k. split; [reflexivity | exact Hn].
Qed.

Lemma exists_of_dir w p : is_dir_in w p = true -> exists_in w p = true.
Proof. unfold is_dir_in, exists_in. destruct (stat w p) as [[|]|]; congruence. Qed.

(** X8. Where the path is a directory, reading it as a file and deleting
    it as a file are answered with the error of the system, as text, and
    the directory stays; listing a regular file is answered likewise. *)
Theorem wrong_kind_is_described path content destination w :
  (is_dir_in w (Path_of path) = true ->
   exists name,
     FileSystemTool._run "read_file" path content destination w
     = (Return ("Error executing read_file: [Errno 21] Is a directory: " +:+ name), w)
     /\ FileSystemTool._run "delete_file" path content destination w
        = (Return ("Error executing delete_file: [Errno 21] Is a directory: " +:+ name), w))
  /\ (is_file_in w (Path_of path) = true ->
      exists name,
        FileSystemTool._run "list_dir" path content destination w
        = (Return ("Error executing list_dir: [Errno 20] Not a directory: " +:+ name), w)).
Proof.
  split.
  - intros Hdir. exists (Str.repr (Path_str (Path_of path))).
    destruct (stat_dir_inv _ _ Hdir) as (k & Hk & Hn).
    pose proof (exists_of_dir _ _ Hdir) as Hfound.
    split; unfold FileSystemTool._run; unfold_M; simpl; rewrite Hfound; simpl.
    + unfold Path_read_text, ask_outcome. rewrite Hk. simpl. rewrite Hn. reflexivity.
    + unfold Path_unlink, on_fs. rewrite Hk, Hn. rewrite with_fs_same. reflexivity.
  - intros Hfile. exists (Str.repr (Path_str (Path_of path))).
    pose proof (exists_of_file _ _ Hfile) as Hfound.
    unfold is_file_in in Hfile.
    destruct (stat w (Path_of path)) as [[d|]|e] eqn:Hstat; try discriminate.
    destruct (stat_file_inv _ _ _ Hstat) as (k & Hk & Hn).
    unfold FileSystemTool._run; unfold_M; simpl; rewrite Hfound; simpl.
    unfold Path_iterdir, ask_outcome. rewrite Hk. simpl. rewrite Hn. reflexivity.
Qed.

Lemma wrong_kind_is_described_witness :
  (exists name,
     FileSystemTool._run "read_file" "repo" None None desk
     = (Return ("Error executing read_file: [Errno 21] Is a directory: " +:+ name), desk)
     /\ FileSystemTool._run "delete_file" "repo" None None desk
        = (Return ("Error executing delete_file: [Errno 21] Is a directory: " +:+ name), desk))
  /\ (exists name,
        FileSystemTool._run "list_dir" "notes.txt" None None desk
        = (Return ("Error executing list_dir: [Errno 20] Not a directory: " +:+ name), desk)).
Proof.
  destruct (wrong_kind_is_described "repo" None None desk) as [Hdir _].
  destruct (wrong_kind_is_described "notes.txt" None None desk) as [_ Hfile].
  split.
  - apply Hdir. vm_compute; reflexivity.
  - apply Hfile. vm_compute; reflexivity.
Defined.

(** ** The git adapter: what is run, and what is made of it *)

Ltac git_leaf :=
  unfold GitTool.git, subprocess_run_in, git_report; unfold_M; cbv zeta;
  match goal with
  | |- context [subprocess_run ?h ?argv ?dir ?t] =>
      destruct (subprocess_run h argv dir t) as [[result|e] t']; simpl;
      [destruct (returncode result =? 0)|]; reflexivity
  end.

(** X9. For an operation run in the repository, on a path that exists, the
    adapter starts one subprocess, [git] with the arguments of the
    operation, in the resolved path, and answers by the way it ended:
    success with the output for return code 0, failure with the error
    output for any other, and the text of the exception if starting it
    raised. *)
Theorem git_runs_command operation path message branch remote_url argv w :
  String.eqb operation "clone" && truthy remote_url = false ->
  exists_in w (resolved w (Path_of path)) = true ->
  git_command operation message branch = Some argv ->
  let dir := resolved w (Path_of path) in
  let answer := subprocess_run (host w) ("git" :: argv) dir (fs w) in
  GitTool._run operation path message branch remote_url w
  = (Return (git_report operation answer.1),
     with_proc (with_fs w answer.2) ("git" :: argv, parts dir)).
Proof.
  intros Hclone Hfound Hcommand. cbv zeta.
  unfold GitTool._run. unfold_M. rewrite Hclone, Hfound. simpl.
  unfold git_command in Hcommand.
  repeat match type of Hcommand with
         | (if ?c then _ else _) = _ => destruct c; simpl
         end;
    try discriminate; injection Hcommand as <-; git_leaf.
Qed.

Lemma git_runs_command_witness :
  GitTool._run "commit" "repo" (Some "first") None None desk
  = (Return ("Git commit successful:" +:+ nl),
     with_proc (with_fs desk (fs desk)) (["git"; "commit"; "-m"; "first"], ["home"; "dev"; "repo"])).
Proof.
  apply (git_runs_command "commit" "repo" (Some "first") None None
           ["commit"; "-m"; "first"] desk); vm_compute; reflexivity.
Defined.

(** X10. On a path that exists, an operation name outside the eight the
    adapter runs in a repository is answered with the text for an unknown
    operation, with the name in it, and nothing is started; so is [clone]
    when no remote URL comes with it. *)
Theorem unknown_git_operation operation path message branch remote_url w :
  String.eqb operation "clone" && truthy remote_url = false ->
  exists_in w (resolved w (Path_of path)) = true ->
  operation ∉ git_operations ->
  GitTool._run operation path message branch remote_url w
  = (Return ("Unknown Git operation: " +:+ operation), w).
Proof.
  intros Hclone Hfound Hop. unfold git_operations in Hop.
  repeat (apply not_elem_of_cons in Hop as [?%String.eqb_neq Hop]).
  unfold GitTool._run. unfold_M. rewrite Hclone, Hfound. simpl.
  repeat match goal with H : String.eqb operation _ = false |- _ => rewrite H; clear H end.
  reflexivity.
Qed.

Lemma unknown_git_operation_witness :
  GitTool._run "clone" "repo" None None None desk
  = (Return "Unknown Git operation: clone", desk).
Proof.
  apply (unknown_git_operation "clone" "repo" None None None desk).
  - reflexivity.
  - vm_compute; reflexivity.
  - vm_compute. intros H. repeat (apply elem_of_cons in H as [H | H]; [discriminate|]).
    inversion H.
Defined.

(** X11. A clone with a remote URL does not look whether the path exists:
    it starts [git clone] with the URL and the resolved path, in the
    working directory, and answers by the way it ended. *)
Theorem clone_runs_in_working_directory path message branch url w :
  url <> "" ->
  let target := Path_str (resolved w (Path_of path)) in
  let here := MkPath true (cwd w) in
  let answer := subprocess_run (host w) ["git"; "clone"; url; target] here (fs w) in
  GitTool._run "clone" path message branch (Some url) w
  = (Return (git_report "clone" answer.1),
     with_proc (with_fs w answer.2) (["git"; "clone"; url; target], cwd w)).
Proof.
  intros Hurl. cbv zeta.
  unfold GitTool._run. unfold_M.
  destruct url as [|c url]; [congruence|]. simpl. git_leaf.
Qed.

Lemma clone_runs_in_working_directory_witness :
  GitTool._run "clone" "vendor/lib" None None (Some "https://example.org/lib.git") desk
  = (Return ("Git clone successful:" +:+ nl),
     with_proc (with_fs desk (fs desk))
       (["git"; "clone"; "https://example.org/lib.git"; "/home/dev/vendor/lib"],
        ["home"; "dev"])).
Proof.
  apply (clone_runs_in_working_directory "vendor/lib" None None
           "https://example.org/lib.git" desk).
  discriminate.
Defined.

Ltac git_count_leaf :=
  first
    [ left; reflexivity
    | right; unfold GitTool.git, subprocess_run_in; unfold_M;
      match goal with
      | |- context [subprocess_run ?h ?argv ?dir ?t] =>
          destruct (subprocess_run h argv dir t) as [[result|e] t']; simpl;
          [destruct (returncode result =? 0)|]; eexists _, _; reflexivity
      end ].

(** X12. Whatever the arguments, a call of the git adapter starts at most
    one subprocess, and that one is [git]. *)
Theorem git_starts_at_most_one operation path message branch remote_url w :
  let w' := (GitTool._run operation path message branch remote_url w).2 in
  procs w' = procs w
  \/ exists argv dir, procs w' = ("git" :: argv, dir) :: procs w.
Proof.
  cbv zeta. unfold GitTool._run. unfold_M.
  destruct (String.eqb operation "clone" && truthy remote_url); [git_count_leaf|].
  destruct (exists_in w (resolved w (Path_of path))); simpl; [|left; reflexivity].
  repeat match goal with
         | |- context [if ?c then _ else _] =>
             lazymatch c with
             | String.eqb operation _ => destruct c
             | truthy _ => destruct c
             | negb (truthy _) => destruct c
             end
         end;
    git_count_leaf.
Qed.

(** ** The web adapter: requests and answers *)

Arguments WebResearchTool.search_report : simpl never.
Arguments WebResearchTool.clean_text : simpl never.
Arguments WebResearchTool.limit_text : simpl never.

(** A search asks for one address and answers with a text: nothing it
    does raises, and nothing else in the world changes. *)
Lemma search_web_effect query w :
  exists s, WebResearchTool._search_web query w = (Return s, with_request w (search_url query)).
Proof.
  unfold WebResearchTool._search_web, requests_get_url, search_url. unfold_M.
  destruct (requests_get (host w) _ []) as [response|e]; [|eauto].
  destruct (status_code response =? 200); [|eauto].
  destruct (json_of response) as [data|e]; [|eauto].
  simpl. destruct (WebResearchTool.search_report _ query data); eauto.
Qed.

Lemma scrape_url_effect url w :
  exists s, WebResearchTool._scrape_url url w = (Return s, with_request w url).
Proof.
  unfold WebResearchTool._scrape_url, requests_get_url. unfold_M.
  destruct (requests_get (host w) url _) as [response|e]; [|eauto].
  destruct (status_code response =? 200); [|eauto].
  simpl. destruct (soup_get_text _ (content response)); eauto.
Qed.

(** What the two searches of [_search_documentation] answer, and the
    report made of them. *)
Lemma search_documentation_effect query w :
  exists s1 s2,
    let w1 := with_request w (search_url ("site:docs.python.org " +:+ query)) in
    let w2 := with_request w1 (search_url ("site:developer.mozilla.org " +:+ query)) in
    WebResearchTool._search_web ("site:docs.python.org " +:+ query) w = (Return s1, w1)
    /\ WebResearchTool._search_web ("site:developer.mozilla.org " +:+ query) w1 = (Return s2, w2)
    /\ WebResearchTool._search_documentation query w
       = (Return (documentation_report query [s1; s2]), w2).
Proof.
  destruct (search_web_effect ("site:docs.python.org " +:+ query) w) as [s1 H1].
  destruct (search_web_effect ("site:developer.mozilla.org " +:+ query)
              (with_request w (search_url ("site:docs.python.org " +:+ query)))) as [s2 H2].
  exists s1, s2. cbv zeta. split; [exact H1 | split; [exact H2|]].
  unfold WebResearchTool._search_documentation, documentation_report, kept_answer.
  unfold_M. simpl. unfold_M. rewrite H1.
  destruct (negb (String.eqb s1 "") && negb (Str.contains "No detailed results" s1));
    simpl; rewrite H2;
    destruct (negb (String.eqb s2 "") && negb (Str.contains "No detailed results" s2));
    reflexivity.
Qed.

(** X13. The requests of a call of the web adapter: one for a search, to
    the search address of the query; one for a scrape with a URL, to that
    URL; two for a documentation search, to the search address for the
    query on docs.python.org and then on developer.mozilla.org; none for
    anything else. Nothing but the log of requests changes. *)
Theorem web_requests operation query url w :
  (WebResearchTool._run operation query url w).2
  = if String.eqb operation "search" then with_request w (search_url query)
    else if String.eqb operation "scrape" && truthy url then with_request w (text_of url)
    else if String.eqb operation "documentation" then
      with_request
        (with_request w (search_url ("site:docs.python.org " +:+ query)))
        (search_url ("site:developer.mozilla.org " +:+ query))
    else w.
Proof.
  unfold WebResearchTool._run, try_except.
  destruct (String.eqb operation "search").
  { destruct (search_web_effect query w) as [s ->]. reflexivity. }
  destruct (String.eqb operation "scrape" && truthy url).
  { destruct (scrape_url_effect (text_of url) w) as [s ->]. reflexivity. }
  destruct (String.eqb operation "documentation"); [|reflexivity].
  destruct (search_documentation_effect query w) as (s1 & s2 & _ & _ & ->). reflexivity.
Qed.

(** X14. A documentation search reports what its two searches answered,
    joined by an empty line, leaving out an answer that is empty or says
    that no detailed results were found; when both are left out it says
    that no documentation was found. An answer that reports an error of
    the search is kept like any other. *)
Theorem documentation_joins_searches query url w :
  exists s1 s2 w1 w2,
    WebResearchTool._run "search" ("site:docs.python.org " +:+ query) url w = (Return s1, w1)
    /\ WebResearchTool._run "search" ("site:developer.mozilla.org " +:+ query) url w1
       = (Return s2, w2)
    /\ WebResearchTool._run "documentation" query url w
       = (Return (documentation_report query [s1; s2]), w2).
Proof.
  destruct (search_documentation_effect query w) as (s1 & s2 & H1 & H2 & H).
  cbv zeta in *. eexists s1, s2, _, _.
  unfold WebResearchTool._run, try_except. simpl.
  rewrite H1, H2, H. repeat split.
Qed.

(** X15. What the web adapter answers when the network fails: the text of
    the exception when the request raises, the status code when it is not
    200, for a search and for a scrape; and a documentation search whose
    two searches fail hands on the two error texts, it does not say that
    no documentation was found. *)
Theorem web_failures_are_described query url w :
  (forall e, requests_get (host w) (search_url query) [] = Raise e ->
     (WebResearchTool._run "search" query url w).1
     = Return ("Error searching web: " +:+ exn_str e))
  /\ (forall response,
     requests_get (host w) (search_url query) [] = Return response ->
     status_code response <> 200 ->
     (WebResearchTool._run "search" query url w).1
     = Return ("Search failed with status code: " +:+ Str.of_Z (status_code response)))
  /\ (forall address e,
     address <> "" ->
     requests_get (host w) address scrape_headers = Raise e ->
     (WebResearchTool._run "scrape" query (Some address) w).1
     = Return ("Error scraping URL: " +:+ exn_str e))
  /\ (forall address response,
     address <> "" ->
     requests_get (host w) address scrape_headers = Return response ->
     status_code response <> 200 ->
     (WebResearchTool._run "scrape" query (Some address) w).1
     = Return ("Failed to scrape URL. Status code: " +:+ Str.of_Z (status_code response)))
  /\ (forall e,
     (forall address, requests_get (host w) address [] = Raise e) ->
     kept_answer ("Error searching web: " +:+ exn_str e) = true ->
     (WebResearchTool._run "documentation" query url w).1
     = Return ("Error searching web: " +:+ exn_str e +:+ nl +:+ nl
               +:+ "Error searching web: " +:+ exn_str e)).
Proof.
  split; [|split; [|split; [|split]]].
  - intros e He.
    unfold WebResearchTool._run, WebResearchTool._search_web, requests_get_url.
    unfold_M. simpl. fold (search_url query). rewrite He. reflexivity.
  - intros response Hresponse Hstatus.
    unfold WebResearchTool._run, WebResearchTool._search_web, requests_get_url.
    unfold_M. simpl. fold (search_url query). rewrite Hresponse.
    apply Z.eqb_neq in Hstatus. rewrite Hstatus. reflexivity.
  - intros address e Haddress He.
    destruct address as [|c address]; [congruence|].
    unfold WebResearchTool._run, WebResearchTool._scrape_url, requests_get_url.
    unfold_M. simpl. fold scrape_headers. rewrite He. reflexivity.
  - intros address response Haddress Hresponse Hstatus.
    destruct address as [|c address]; [congruence|].
    unfold WebResearchTool._run, WebResearchTool._scrape_url, requests_get_url.
    unfold_M. simpl. fold scrape_headers. rewrite Hresponse.
    apply Z.eqb_neq in Hstatus. rewrite Hstatus. reflexivity.
  - intros e Hdown Hkept.
    assert (forall q w0, host w0 = host w ->
              WebResearchTool._search_web q w0
              = (Return ("Error searching web: " +:+ exn_str e),
                 with_request w0 (search_url q))) as Hsearch.
    { intros q w0 Hhost. unfold WebResearchTool._search_web, requests_get_url.
      unfold_M. fold (search_url q). rewrite Hhost, Hdown. reflexivity. }
    destruct (search_documentation_effect query w) as (s1 & s2 & H1 & H2 & H).
    cbv zeta in *.
    rewrite Hsearch in H1 by reflexivity. injection H1 as <-.
    rewrite Hsearch in H2 by reflexivity. injection H2 as <-.
    unfold WebResearchTool._run, try_except. simpl. rewrite H.
    unfold documentation_report. simpl List.filter. rewrite Hkept. reflexivity.
Qed.

Lemma web_failures_are_described_witness :
  (WebResearchTool._run "documentation" "rocq" None desk).1
  = Return ("Error searching web: connection refused" +:+ nl +:+ nl
            +:+ "Error searching web: connection refused").
Proof.
  destruct (web_failures_are_described "rocq" None desk) as (_ & _ & _ & _ & Hdown).
  apply (Hdown (Exn RequestException "connection refused")).
  - intros address. reflexivity.
  - vm_compute; reflexivity.
Defined.

(** ** The web adapter: the size and the shape of what it hands on *)

Lemma length_append a b :
  String.length (a +:+ b) = (String.length a + String.length b)%nat.
Proof. induction a as [|c a IH]; simpl; [reflexivity | rewrite IH; reflexivity]. Qed.

Lemma length_take n : forall s, String.length (Str.take n s) = Nat.min n (String.length s).
Proof.
  induction n as [|n IH]; intros [|c s]; simpl; try reflexivity.
  rewrite IH. reflexivity.
Qed.

Lemma limit_text_bound text :
  Str.len (WebResearchTool.limit_text text) <= 2015
  /\ (WebResearchTool.limit_text text = text
      \/ (2000 < Str.len text
          /\ WebResearchTool.limit_text text = Str.take 2000 text +:+ "... (truncated)")).
Proof.
  unfold WebResearchTool.limit_text, Str.len.
  destruct (Z.gtb_spec (Z.of_nat (String.length text)) 2000) as [Hlong | Hshort].
  - split; [|right; split; [lia | reflexivity]].
    rewrite length_append, length_take. simpl String.length. lia.
  - split; [lia | left; reflexivity].
Qed.

(** X16. A scrape that is answered with status 200 hands on the cleaned
    text of the page after a line that names the URL: the whole of it when
    it has at most 2000 characters, else its first 2000 characters and the
    mark that it was cut; never more than 2015 characters. *)
Theorem scrape_is_bounded query address response page w :
  address <> "" ->
  requests_get (host w) address scrape_headers = Return response ->
  status_code response = 200 ->
  soup_get_text (host w) (content response) = Return page ->
  exists body,
    (WebResearchTool._run "scrape" query (Some address) w).1
    = Return ("Content from " +:+ address +:+ ":" +:+ nl +:+ nl +:+ body)
    /\ Str.len body <= 2015
    /\ (body = WebResearchTool.clean_text page
        \/ (2000 < Str.len (WebResearchTool.clean_text page)
            /\ body = Str.take 2000 (WebResearchTool.clean_text page) +:+ "... (truncated)")).
Proof.
  intros Haddress Hresponse Hstatus Hpage.
  exists (WebResearchTool.limit_text (WebResearchTool.clean_text page)).
  split; [|apply limit_text_bound].
  destruct address as [|c address]; [congruence|].
  unfold WebResearchTool._run, WebResearchTool._scrape_url, requests_get_url.
  unfold_M. simpl. fold scrape_headers. rewrite Hresponse, Hstatus. simpl.
  rewrite Hpage. reflexivity.
Qed.

Lemma scrape_is_bounded_witness :
  exists body,
    (WebResearchTool._run "scrape" "" (Some "https://example.org") online_desk).1
    = Return ("Content from https://example.org:" +:+ nl +:+ nl +:+ body)
    /\ Str.len body <= 2015
    /\ (body = WebResearchTool.clean_text "  hello  "
        \/ (2000 < Str.len (WebResearchTool.clean_text "  hello  ")
            /\ body = Str.take 2000 (WebResearchTool.clean_text "  hello  ")
                      +:+ "... (truncated)")).
Proof.
  apply (scrape_is_bounded "" "https://example.org"
           {| status_code := 200; content := "<p>  hello  </p>"; json_of := Return (JObj []) |}
           "  hello  " online_desk).
  - discriminate.
  - reflexivity.
  - reflexivity.
  - reflexivity.
Defined.

(** X17. For an answer that has neither an abstract nor related topics the
    search keeps only its heading, and hands it on when the query has more
    than 28 characters; for a shorter query it says that no detailed
    results were found. *)
Theorem bare_answer_report h query data :
  no_details data = true ->
  WebResearchTool.search_report h query data
  = Return (if 28 <? Str.len query
            then "Search results for: " +:+ query +:+ nl +:+ nl
            else "No detailed results found for this query").
Proof.
  unfold no_details. destruct data as [| | | | |fields]; try discriminate.
  intros [Habstract Hrelated]%andb_prop.
  apply negb_true_iff in Habstract, Hrelated.
  unfold WebResearchTool.search_report. simpl.
  rewrite Habstract. simpl. rewrite Hrelated. simpl.
  assert (Str.len ("Search results for: " +:+ query +:+ nl +:+ nl) = 22 + Str.len query)
    as Hlen.
  { unfold Str.len. rewrite !length_append. simpl String.length. lia. }
  rewrite Hlen.
  destruct (Z.ltb_spec 28 (Str.len query)) as [Hlong | Hshort].
  - assert ((22 + Str.len query >? 50) = true) as -> by lia. reflexivity.
  - assert ((22 + Str.len query >? 50) = false) as -> by lia. reflexivity.
Qed.

Lemma bare_answer_report_witness :
  WebResearchTool.search_report quiet_host "rocq" (JObj [("Abstract", JStr "")])
  = Return "No detailed results found for this query".
Proof.
  apply (bare_answer_report quiet_host "rocq" (JObj [("Abstract", JStr "")])).
  reflexivity.
Defined.

Lemma lstrip_head s :
  Str.lstrip s = "" \/ exists c r, Str.lstrip s = String c r /\ Str.isspace c = false.
Proof.
  induction s as [|c s IH]; simpl; [left; reflexivity|].
  destruct (Str.isspace c) eqn:Hc; [exact IH | right; eauto].
Qed.

Lemma rstrip_head c r :
  Str.isspace c = false -> exists r', Str.rstrip (String c r) = String c r'.
Proof.
  intros Hc. simpl. destruct (Str.rstrip r); [rewrite Hc|]; eauto.
Qed.

Lemma rstrip_idempotent s : Str.rstrip (Str.rstrip s) = Str.rstrip s.
Proof.
  induction s as [|c s IH]; simpl; [reflexivity|].
  destruct (Str.rstrip s) as [|c' r] eqn:Hr.
  - destruct (Str.isspace c) eqn:Hc; simpl; [reflexivity | rewrite Hc; reflexivity].
  - simpl. simpl in IH. rewrite IH. destruct (Str.rstrip r); reflexivity.
Qed.

(** Stripping what is stripped changes nothing. *)
Lemma strip_idempotent s : Str.strip (Str.strip s) = Str.strip s.
Proof.
  unfold Str.strip.
  destruct (lstrip_head s) as [-> | (c & r & -> & Hc)]; [reflexivity|].
  destruct (rstrip_head c r Hc) as [r' Hr']. rewrite Hr'.
  assert (Str.lstrip (String c r') = String c r') as -> by (simpl; rewrite Hc; reflexivity).
  rewrite <- Hr'. apply rstrip_idempotent.
Qed.

(** X18. The cleaned text of a page is made of pieces joined by line
    feeds, and no piece is empty or begins or ends with white space. *)
Theorem clean_text_pieces text :
  exists pieces,
    WebResearchTool.clean_text text = Str.join nl pieces
    /\ Forall (fun piece => piece <> "" /\ Str.strip piece = piece) pieces.
Proof.
  unfold WebResearchTool.clean_text. eexists. split; [reflexivity|].
  apply Forall_forall. intros piece Hpiece.
  apply list_elem_of_In, filter_In in Hpiece as [Hin Hne].
  split.
  - intros ->. discriminate.
  - apply list_elem_of_In, list_elem_of_bind in Hin as (line & Hin & _).
    apply list_elem_of_fmap in Hin as (phrase & -> & _).
    apply strip_idempotent.
Qed.

(** ** The analysis adapter *)

Arguments CodeAnalysisTool._analyze_python_structure : simpl never.
Arguments CodeAnalysisTool._analyze_python_complexity : simpl never.
Arguments CodeAnalysisTool._lint_python_code : simpl never.
Arguments CodeAnalysisTool._analyze_code_quality : simpl never.



(** X20. On a file that exists, an operation other than [quality] is
    refused, with the operation and the language in the text, when the
    language is not [python] or the operation is none of [structure],
    [complexity] and [lint]; nothing is read or run. *)
Theorem analysis_not_supported ip operation file_path language w :
  exists_in w (Path_of file_path) = true ->
  operation <> "quality" ->
  language <> "python" \/ operation ∉ python_analyses ->
  CodeAnalysisTool._run ip operation file_path language w
  = (Return ("Analysis operation '" +:+ operation +:+ "' not supported for " +:+ language), w).
Proof.
  intros Hfound Hquality Hno.
  apply String.eqb_neq in Hquality.
  unfold CodeAnalysisTool._run. unfold_M. rewrite Hfound. simpl.
  rewrite Hquality.
  destruct Hno as [Hlang | Hop].
  - apply String.eqb_neq in Hlang. rewrite Hlang, !andb_false_r. reflexivity.
  - unfold python_analyses in Hop.
    repeat (apply not_elem_of_cons in Hop as [?%String.eqb_neq Hop]).
    repeat match goal with H : String.eqb operation _ = false |- _ => rewrite H; clear H end.
    reflexivity.
Qed.

Lemma analysis_not_supported_witness :
  CodeAnalysisTool._run plain_interp "lint" "notes.txt" "javascript" desk
  = (Return "Analysis operation 'lint' not supported for javascript", desk).
Proof.
  apply (analysis_not_supported plain_interp "lint" "notes.txt" "javascript" desk).
  - vm_compute; reflexivity.
  - discriminate.
  - left. discriminate.
Defined.

Lemma disjoint_filters {A : Type} (f g : A -> bool) l :
  (forall x, f x = true -> g x = false) ->
  (length (List.filter f l) + length (List.filter g l) <= length l)%nat.
Proof.
  intros Hfg. induction l as [|x l IH]; simpl; [lia|].
  destruct (f x) eqn:Hf.
  - rewrite (Hfg x Hf). simpl. lia.
  - destruct (g x); simpl; lia.
Qed.

Lemma split_length_pos sep s : (1 <= length (Str.split sep s))%nat.
Proof.
  pose proof (split_not_nil sep s). destruct (Str.split sep s); [congruence | simpl; lia].
Qed.

(** The counts of the quality analysis: there is at least one line, and
    the blank lines and the comment lines, which are not the same lines,
    are no more than all lines. *)
Lemma quality_counts content :
  1 <= CodeAnalysisTool.total_lines content
  /\ 0 <= CodeAnalysisTool.blank_lines content
  /\ 0 <= CodeAnalysisTool.comment_lines content
  /\ CodeAnalysisTool.blank_lines content + CodeAnalysisTool.comment_lines content
     <= CodeAnalysisTool.total_lines content.
Proof.
  unfold CodeAnalysisTool.total_lines, CodeAnalysisTool.blank_lines,
    CodeAnalysisTool.comment_lines.
  pose proof (split_length_pos "010" content).
  pose proof (disjoint_filters CodeAnalysisTool.is_blank_line
                CodeAnalysisTool.is_comment_line (Str.split "010" content)) as Hdisjoint.
  assert (forall x, CodeAnalysisTool.is_blank_line x = true ->
                    CodeAnalysisTool.is_comment_line x = false) as Hfg.
  { intros x. unfold CodeAnalysisTool.is_blank_line, CodeAnalysisTool.is_comment_line.
    intros ->%String.eqb_eq. reflexivity. }
  specialize (Hdisjoint Hfg). lia.
Qed.

(** X21. On a regular file that is read as text the quality analysis
    divides by a number of lines that is at least one: when the interpreter prints the ratio for
    every divisor other than zero, the answer is the report, never an
    error text; its counts are not negative, the code lines included, and
    nothing in the world changes. *)
Theorem quality_report_is_made ip file_path language data w :
  (forall a b, b <> 0 -> exists text, percent_1f ip a b = Return text) ->
  stat w (Path_of file_path) = Return (File data) ->
  let content := newlines_in data in
  let total := CodeAnalysisTool.total_lines content in
  let blank := CodeAnalysisTool.blank_lines content in
  let comment := CodeAnalysisTool.comment_lines content in
  exists ratio,
    percent_1f ip comment total = Return ratio
    /\ CodeAnalysisTool._run ip "quality" file_path language w
       = (Return ("Code Quality Analysis for " +:+ Path_name (Path_of file_path) +:+ ":" +:+ nl
                  +:+ "Total lines: " +:+ Str.of_Z total +:+ nl
                  +:+ "Blank lines: " +:+ Str.of_Z blank +:+ nl
                  +:+ "Comment lines: " +:+ Str.of_Z comment +:+ nl
                  +:+ "Code lines: " +:+ Str.of_Z (total - blank - comment) +:+ nl
                  +:+ "Comment ratio: " +:+ ratio +:+ "%"), w)
    /\ 1 <= total /\ 0 <= blank /\ 0 <= comment /\ 0 <= total - blank - comment.
Proof.
  intros Hprint Hstat. cbv zeta.
  destruct (quality_counts (newlines_in data)) as (Htotal & Hblank & Hcomment & Hsum).
  destruct (Hprint (CodeAnalysisTool.comment_lines (newlines_in data))
              (CodeAnalysisTool.total_lines (newlines_in data))) as [ratio Hratio]; [lia|].
  exists ratio. split; [exact Hratio|]. split; [|repeat split; lia].
  destruct (stat_file_inv _ _ _ Hstat) as (k & Hk & Hn).
  assert (exists_in w (Path_of file_path) = true) as Hfound
    by (unfold exists_in; rewrite Hstat; reflexivity).
  unfold CodeAnalysisTool._run. unfold_M. rewrite Hfound. simpl.
  unfold CodeAnalysisTool._analyze_code_quality, Path_read_text. unfold_M.
  rewrite Hk. simpl. rewrite Hn, Hratio. reflexivity.
Qed.

Lemma quality_report_is_made_witness :
  exists ratio,
    percent_1f plain_interp 0 1 = Return ratio
    /\ (CodeAnalysisTool._run plain_interp "quality" "notes.txt" "text" desk).2 = desk.
Proof.
  destruct (quality_report_is_made plain_interp "notes.txt" "text" "to do" desk)
    as (ratio & Hratio & Hrun & _).
  - intros a b _. exists "0.0". reflexivity.
  - vm_compute; reflexivity.
  - exists ratio. split; [exact Hratio|]. cbv zeta in Hrun. rewrite Hrun. reflexivity.
Defined.



Lemma collect_names tree found :
  let found' := fold_left CodeAnalysisTool.collect tree found in
  CodeAnalysisTool.classes found' = CodeAnalysisTool.classes found ++ class_names tree
  /\ CodeAnalysisTool.functions found' = CodeAnalysisTool.functions found ++ function_names tree
  /\ CodeAnalysisTool.imports found' = CodeAnalysisTool.imports found ++ import_names tree.
Proof.
  revert found. induction tree as [|node tree IH]; intros found; cbv zeta.
  - simpl. rewrite !app_nil_r. auto.
  - simpl fold_left. destruct (IH (CodeAnalysisTool.collect found node)) as (Hc & Hf & Hi).
    cbv zeta in Hc, Hf, Hi. rewrite Hc, Hf, Hi.
    destruct node; simpl; rewrite <- ?app_assoc; auto.
Qed.

(** X23. [structure] on a regular file that is read as text, with the
    language [python]: when the text of the file parses,
    the report lists the names of the class definitions, of the function
    definitions and of the imported modules among the nodes, each list in
    the order of the walk and with its length, an import without module
    as the empty name; when it does not parse, the answer is the text of
    the error.  Nothing in the world changes. *)
Theorem structure_lists_names ip file_path data w :
  stat w (Path_of file_path) = Return (File data) ->
  CodeAnalysisTool._run ip "structure" file_path "python" w
  = (Return
       match ast_nodes ip (newlines_in data) with
       | Return tree =>
           "Python Structure Analysis for " +:+ Path_name (Path_of file_path) +:+ ":" +:+ nl
           +:+ CodeAnalysisTool.listing "Classes" (class_names tree) +:+ nl
           +:+ CodeAnalysisTool.listing "Functions" (function_names tree) +:+ nl
           +:+ CodeAnalysisTool.listing "Imports" (import_names tree)
       | Raise e => "Error analyzing Python structure: " +:+ exn_str e
       end, w).
Proof.
  intros Hstat.
  destruct (stat_file_inv _ _ _ Hstat) as (k & Hk & Hn).
  assert (exists_in w (Path_of file_path) = true) as Hfound
    by (unfold exists_in; rewrite Hstat; reflexivity).
  unfold CodeAnalysisTool._run. unfold_M. rewrite Hfound. simpl.
  unfold CodeAnalysisTool._analyze_python_structure, Path_read_text. unfold_M.
  rewrite Hk. simpl. rewrite Hn.
  destruct (ast_nodes ip (newlines_in data)) as [tree|e]; [|reflexivity].
  simpl.
  destruct (collect_names tree
              {| CodeAnalysisTool.classes := []; CodeAnalysisTool.functions := [];
                 CodeAnalysisTool.imports := [] |}) as (Hc & Hf & Hi).
  cbv zeta in Hc, Hf, Hi. simpl in Hc, Hf, Hi. rewrite Hc, Hf, Hi. reflexivity.
Qed.

Lemma structure_lists_names_witness :
  CodeAnalysisTool._run plain_interp "structure" "notes.txt" "python" desk
  = (Return ("Python Structure Analysis for notes.txt:" +:+ nl
             +:+ "Classes (1): Team" +:+ nl
             +:+ "Functions (1): run" +:+ nl
             +:+ "Imports (1): os"), desk).
Proof.
  apply (structure_lists_names plain_interp "notes.txt" "to do" desk).
  vm_compute; reflexivity.
Defined.

(** ** The custom crew *)

Lemma registry_lookup {V : Type} (config : V -> string) (registry : list V) name :
  match (list_to_map ((fun v => (config v, v)) <$> registry) : gmap string V) !! name with
  | Some v => config v = name /\ v ∈ registry /\ name ∈ config <$> registry
  | None => name ∉ config <$> registry
  end.
Proof.
  destruct (_ !! name) as [v|] eqn:Hlookup.
  - apply elem_of_list_to_map_2, list_elem_of_fmap in Hlookup as (v' & [= -> ->] & Hin).
    split; [reflexivity|]. split; [exact Hin|].
    apply list_elem_of_fmap. eauto.
  - apply not_elem_of_list_to_map_2 in Hlookup.
    rewrite <- list_fmap_compose in Hlookup. exact Hlookup.
Qed.

Lemma omap_registry {V : Type} (config : V -> string) (registry : list V) names :
  let d : gmap string V := list_to_map ((fun v => (config v, v)) <$> registry) in
  config <$> omap (fun name => d !! name) names
  = filter (fun name => name ∈ config <$> registry) names
  /\ Forall (fun v => v ∈ registry) (omap (fun name => d !! name) names).
Proof.
  cbv zeta. induction names as [|name names [IHnames IHin]]; [split; [reflexivity | constructor]|].
  pose proof (registry_lookup config registry name) as Hname.
  simpl. destruct (_ !! name) as [v|].
  - destruct Hname as (Hconfig & Hin & Hknown).
    rewrite filter_cons_True by exact Hknown.
    split; [simpl; rewrite Hconfig; f_equal; exact IHnames | constructor; assumption].
  - rewrite filter_cons_False by exact Hname. split; assumption.
Qed.


(** ** What a run that ends well has done *)

Lemma mkdir_exist_ok_frame p w w1 :
  mkdir_exist_ok p w = (Return (), w1) ->
  host w1 = host w /\ procs w1 = procs w /\ requests w1 = requests w
  /\ stdin w1 = stdin w.
Proof.
  unfold mkdir_exist_ok, try_except.
  destruct (os_mkdir p w) as [[[]|e] w0] eqn:Hmk.
  - intros [= <-]. apply os_mkdir_inv in Hmk as (k & _ & _ & ->). repeat split.
  - apply os_mkdir_raises in Hmk as ->.
    destruct (is_FileNotFoundError e); [discriminate|].
    intros [-> _]%forgive_if_dir_inv. repeat split.
Qed.

Lemma description_read_frame argv w :
  host (description_read argv w) = host w
  /\ fs (description_read argv w) = fs w
  /\ procs (description_read argv w) = procs w
  /\ requests (description_read argv w) = requests w.
Proof. unfold description_read. destruct (1 <? _); repeat split. Qed.

Lemma main_after_description d w1 r w' :
  ((if String.eqb (Str.strip d) "" then sys_exit 1
    else run (mkdir_exist_ok (Path_of "output"));;
         try_script
           (run new_crew;;
            result ← run (kickoff AiDevTeamCrew.crew d); mret result)
           (fun _ => sys_exit 1)) : Script string) w1 = (Finished r, w') ->
  blank d = false
  /\ exists w2,
       mkdir_exist_ok (Path_of "output") w1 = (Return (), w2)
       /\ crew_new (host w2) = Return ()
       /\ crew_kickoff (host w2) AiDevTeamCrew.crew d (fs w2) = (Return r, fs w')
       /\ w' = with_fs w2 (fs w').
Proof.
  unfold blank.
  destruct (String.eqb (Str.strip d) ""); [discriminate|].
  rewrite script_bind_run.
  destruct (mkdir_exist_ok (Path_of "output") w1) as [[[]|e] w2]; [|discriminate].
  unfold_script.
  destruct (crew_new (host w2)) as [[]|e] eqn:Hnew; [|discriminate].
  destruct (crew_kickoff (host w2) AiDevTeamCrew.crew d (fs w2)) as [[result|e] tree]
    eqn:Hkick; [|discriminate].
  intros [= <- <-]. split; [reflexivity|]. exists w2.
  split; [reflexivity|]. split; [exact Hnew|]. split; [exact Hkick | reflexivity].
Qed.

(** X25. When [main] returns a result, the description (the arguments
    joined by spaces, or else the first line typed) is not blank; the
    directory [output] was there, as a directory, before the crew was
    built; and the result is what the full crew of ten agents and ten
    steps returned for that description, started on that file tree.
    No subprocess was started and no request sent by [main] itself. *)
Theorem main_result argv w r w' :
  main argv w = (Finished r, w') ->
  exists d w2,
    description_of argv w = Some d
    /\ blank d = false
    /\ mkdir_exist_ok (Path_of "output") (description_read argv w) = (Return (), w2)
    /\ is_dir_in w2 (Path_of "output") = true
    /\ crew_new (host w) = Return ()
    /\ crew_kickoff (host w) AiDevTeamCrew.crew d (fs w2) = (Return r, fs w')
    /\ procs w' = procs w /\ requests w' = requests w
    /\ stdin w' = stdin (description_read argv w).
Proof.
  intros Hmain.
  assert (exists d, description_of argv w = Some d
          /\ blank d = false
          /\ exists w2,
               mkdir_exist_ok (Path_of "output") (description_read argv w) = (Return (), w2)
               /\ crew_new (host w2) = Return ()
               /\ crew_kickoff (host w2) AiDevTeamCrew.crew d (fs w2) = (Return r, fs w')
               /\ w' = with_fs w2 (fs w')) as (d & Hd & Hblank & w2 & Hmk & Hnew & Hkick & Hw').
  { revert Hmain. unfold main, description_of, description_read.
    destruct (1 <? Z.of_nat (length argv)).
    - rewrite script_bind_ret. intros [Hblank Hrest]%main_after_description. eauto.
    - rewrite script_bind_run, input_eq.
      destruct (stdin w) as [|line rest]; [discriminate|].
      intros [Hblank Hrest]%main_after_description. simpl. eauto. }
  destruct (mkdir_exist_ok_frame _ _ _ Hmk) as (Hhost & Hprocs & Hrequests & Hstdin).
  destruct (description_read_frame argv w) as (Hhost0 & _ & Hprocs0 & Hrequests0).
  exists d, w2. rewrite <- Hhost0, <- Hhost.
  split; [exact Hd|]. split; [exact Hblank|]. split; [exact Hmk|].
  split; [eapply is_dir_after_mkdir_exist_ok, Hmk|].
  split; [exact Hnew|]. split; [exact Hkick|].
  rewrite Hw'. simpl. rewrite Hprocs, Hprocs0, Hrequests, Hrequests0, Hstdin. repeat split.
Qed.

Lemma main_result_witness :
  exists w2,
    is_dir_in w2 (Path_of "output") = true
    /\ crew_kickoff (host desk) AiDevTeamCrew.crew "todo app" (fs w2) = (Return "OK", fs w2).
Proof.
  destruct (main_result ["main.py"; "todo"; "app"] desk "OK"
              (with_fs desk (<[ ["home"; "dev"; "output"] := Dir ]> (fs desk))))
    as (d & w2 & Hd & _ & Hmk & Hdir & _ & Hkick & _).
  - vm_compute; reflexivity.
  - injection Hd as <-. exists w2. split; [exact Hdir|].
    vm_compute in Hmk. injection Hmk as <-. reflexivity.
Defined.

(** X26. When the custom workflow returns a result, three lines were read;
    both selections were accepted and left at least one agent and one
    step; the description, stripped, is not empty; and the result is what
    the crew of the selected agents and steps returned for it.  The crew
    was started on the file tree as it was found: the custom workflow does
    not make the directory [output], and apart from the three lines read
    and what the crew did to the files, the world is as before. *)
Theorem custom_workflow_result w r w' :
  run_custom_workflow w = (Finished r, w') ->
  exists la lt ld rest sa st c,
    stdin w = la :: lt :: ld :: rest
    /\ parse_selection (Str.strip la) available_agents = Return sa
    /\ parse_selection (Str.strip lt) available_tasks = Return st
    /\ sa <> [] /\ st <> [] /\ blank ld = false
    /\ AiDevTeamCrew.create_custom_crew sa st = Return c
    /\ crew_new (host w) = Return ()
    /\ crew_kickoff (host w) c (Str.strip ld) (fs w) = (Return r, fs w')
    /\ w' = with_fs (with_stdin w rest) (fs w').
Proof.
  unfold run_custom_workflow, blank.
  step_input. destruct (stdin w) as [|la [|lt [|ld rest]]] eqn:Hstdin; try discriminate.
  cbv beta.
  step_input. cbn [stdin with_stdin]. cbv beta.
  step_input. cbn [stdin with_stdin]. cbv beta.
  destruct (String.eqb (Str.strip la) ""); [discriminate|].
  destruct (String.eqb (Str.strip lt) ""); [discriminate|].
  destruct (String.eqb (Str.strip ld) "") eqn:Hd; [discriminate|].
  cbn [orb].
  step_run. unfold lift at 1.
  destruct (parse_selection (Str.strip la) available_agents) as [sa|e] eqn:Hsa;
    [|discriminate].
  step_run. unfold lift at 1.
  destruct (parse_selection (Str.strip lt) available_tasks) as [st|e] eqn:Hst;
    [|discriminate].
  destruct sa as [|a sa]; [discriminate|].
  destruct st as [|t st]; [discriminate|].
  rewrite create_custom_crew_returns. unfold_script. cbn [host fs with_stdin].
  destruct (crew_new (host w)) as [[]|e] eqn:Hnew; simpl; [|discriminate].
  destruct (crew_kickoff (host w) (custom_crew (a :: sa) (t :: st)) (Str.strip ld) (fs w))
    as [[result|e] tree] eqn:Hkick; simpl; [|discriminate].
  intros [= <- <-].
  exists la, lt, ld, rest, (a :: sa), (t :: st), (custom_crew (a :: sa) (t :: st)).
  split; [reflexivity|]. split; [exact Hsa|]. split; [exact Hst|].
  split; [discriminate|]. split; [discriminate|]. split; [exact Hd|].
  split; [apply create_custom_crew_returns|]. split; [reflexivity|].
  split; [first [exact Hkick | reflexivity] | reflexivity].
Qed.

Lemma custom_workflow_result_witness :
  exists sa st,
    parse_selection "1, 6" available_agents = Return sa
    /\ parse_selection "3,1" available_tasks = Return st
    /\ sa <> [] /\ st <> [].
Proof.
  destruct (custom_workflow_result
              (with_stdin desk ["1, 6"; "3,1"; "Build a todo API"]) "OK" desk)
    as (la & lt & ld & rest & sa & st & c & Hstdin & Hsa & Hst & Ha & Ht & _).
  - vm_compute; reflexivity.
  - injection Hstdin as <- <- <- <-. exists sa, st.
    split; [exact Hsa|]. split; [exact Hst|]. split; assumption.
Defined.

(** ** The requirements of the setup *)

Lemma version_refused_spec v :
  DevTeamSetup.version_refused v = Return (negb (version_supported v)).
Proof.
  unfold DevTeamSetup.version_refused, version_supported, as_tuple. simpl.
  destruct (major v =? 3) eqn:Hmajor; simpl.
  - destruct (minor v =? 10) eqn:H10; simpl.
    + destruct (minor v =? 14) eqn:H14; [lia|]. simpl.
      f_equal. lia.
    + destruct (minor v <? 10) eqn:Hlow; simpl; [f_equal; lia|].
      destruct (minor v =? 14) eqn:H14; simpl; f_equal; lia.
  - destruct (major v <? 3) eqn:Hlow; simpl; [reflexivity|].
    f_equal. lia.
Qed.

(** X27. The version test of the setup raises nothing, although it
    compares the five items of the version, a text among them, with pairs
    of numbers: only the first two items are ever compared.  It accepts
    exactly Python 3.10 to 3.13.  The check of the requirements ends well
    exactly when the version is accepted and [git --version], started in
    the working directory, ends with return code 0; on a refused version
    it exits with 1 and [git] is not started. *)
Theorem requirements_met v w :
  DevTeamSetup.version_refused v = Return (negb (version_supported v))
  /\ ((DevTeamSetup.check_system_requirements v w).1 = Finished ()
      <-> version_supported v = true
          /\ exists result tree,
               subprocess_run (host w) ["git"; "--version"] (MkPath true (cwd w)) (fs w)
               = (Return result, tree)
               /\ returncode result = 0)
  /\ (version_supported v = false ->
      DevTeamSetup.check_system_requirements v w = (Exited 1, w)).
Proof.
  split; [apply version_refused_spec|].
  unfold DevTeamSetup.check_system_requirements.
  rewrite script_bind_run. unfold lift at 1. rewrite version_refused_spec.
  destruct (version_supported v); simpl.
  - split; [|discriminate].
    unfold try_script, subprocess_run_here, subprocess_run_in, Path_cwd.
    unfold_script. unfold_M. simpl.
    destruct (subprocess_run (host w) ["git"; "--version"] (MkPath true (cwd w)) (fs w))
      as [[result|e] tree]; simpl.
    + destruct (Z.eqb_spec (returncode result) 0) as [Hcode | Hcode]; simpl.
      * split; [intros _|reflexivity]. split; [reflexivity|]. eauto.
      * split; [discriminate|]. intros (_ & result' & tree' & [= <- <-] & Hzero). contradiction.
    + split.
      * destruct (is_FileNotFoundError e); discriminate.
      * intros (_ & result' & tree' & [=] & _).
  - split; [|reflexivity].
    split; [discriminate|]. intros [[=] _].
Qed.

Lemma pull_all left : forall w,
  (forall argv dir t, exists result t',
     subprocess_run (host w) argv dir t = (Return result, t')) ->
  exists w',
    DevTeamSetup.pull left w = (Return (), w')
    /\ procs w' = pulls_logged left (cwd w) ++ procs w
    /\ host w' = host w /\ cwd w' = cwd w.
Proof.
  induction left as [|model rest IH]; intros w Hstarts.
  - exists w. repeat split.
  - simpl. unfold subprocess_run_here, subprocess_run_in, Path_cwd. unfold_M. simpl.
    destruct (Hstarts ["ollama"; "pull"; model] (MkPath true (cwd w)) (fs w))
      as (result & t' & ->).
    set (w1 := with_proc (with_fs w t') (["ollama"; "pull"; model], cwd w)).
    destruct (IH w1 Hstarts) as (w' & Hpull & Hprocs & Hhost & Hcwd).
    exists w'.
    split; [destruct (returncode result =? 0); exact Hpull|].
    split; [|split; assumption].
    rewrite Hprocs. unfold pulls_logged. simpl. rewrite <- app_assoc. reflexivity.
Qed.

(** X28. A download that fails does not stop the setup of the models: if
    every program can be started, the three downloads are started, one
    after the other in the order of the list, whatever their return codes,
    and the setup returns.  What starting the first download raises, a
    missing [ollama] program say, is not caught: it ends the setup after
    that one start. *)
Theorem failed_pull_does_not_stop w :
  ((forall argv dir t, exists result t',
      subprocess_run (host w) argv dir t = (Return result, t')) ->
   exists w',
     DevTeamSetup.setup_ollama_models w = (Return (), w')
     /\ procs w' = pulls_logged DevTeamSetup.models (cwd w) ++ procs w)
  /\ (forall e t',
        subprocess_run (host w) ["ollama"; "pull"; "llama3.2:3b"] (MkPath true (cwd w)) (fs w)
        = (Raise e, t') ->
        DevTeamSetup.setup_ollama_models w
        = (Raise e, with_proc (with_fs w t') (["ollama"; "pull"; "llama3.2:3b"], cwd w))).
Proof.
  split.
  - intros Hstarts.
    destruct (pull_all DevTeamSetup.models w Hstarts) as (w' & Hpull & Hprocs & _).
    exists w'. split; assumption.
  - intros e t' Hraise.
    unfold DevTeamSetup.setup_ollama_models, DevTeamSetup.models. simpl.
    unfold subprocess_run_here, subprocess_run_in, Path_cwd. unfold_M. simpl.
    rewrite Hraise. reflexivity.
Qed.

Lemma failed_pull_does_not_stop_witness :
  exists w',
    DevTeamSetup.setup_ollama_models bare_desk = (Return (), w')
    /\ procs w' = [ (["ollama"; "pull"; "mistral:7b"], ["home"; "dev"]);
                    (["ollama"; "pull"; "codellama:7b"], ["home"; "dev"]);
                    (["ollama"; "pull"; "llama3.2:3b"], ["home"; "dev"]) ].
Proof.
  apply (proj1 (failed_pull_does_not_stop bare_desk)).
  intros argv dir t. eexists _, _. reflexivity.
Defined.
